(** * ConversationMemory: the bounded conversation window of the Ollama MCP client

    A shallow embedding of the [ConversationMemory] class of
    [mcp-ollama-client.js] (the copy in [demo-memory.js] is the same text
    without [clear]), and the properties of its window, its summary and its
    rendering.

    Conventions of the embedding.
    - A JavaScript string is a [string]; the keywords and labels of the class
      are ASCII, so a substring test on bytes agrees with the one on UTF-16
      code units.
    - [maxMessages] is a JavaScript number holding an integer: a [Z], so that
      zero and negative limits are covered as the code treats them.
    - [new Date().toISOString()] reads the clock: the time stamp is an
      argument [now] of [addMessage].
    - A method is a computation over the fields of [this]: it takes the
      object's state and gives back a completion (normal, or a thrown value)
      together with the state it leaves. *)

From Stdlib Require Import ZArith List String Ascii Bool Lia DecimalString.
Import ListNotations.

Local Open Scope string_scope.
Local Open Scope list_scope.
Local Open Scope Z_scope.

(** ** The JavaScript built-ins the class calls *)

Module JS.

(** The line feed of the source's ['\n']. *)
Definition nl : string := String "010"%char EmptyString.

(** [String.prototype.includes(pat)]: [pat] starts at some position
    of [s]. *)
Fixpoint includes (s pat : string) : bool :=
  String.prefix pat s ||
  match s with
  | EmptyString => false
  | String _ s' => includes s' pat
  end.

(** [Array.prototype.join(sep)] on an array of strings. *)
Definition join (sep : string) (l : list string) : string :=
  String.concat sep l.

(** [Array.prototype.splice(start, deleteCount)] with no item to insert:
    the removed elements, and the array that is left.  [start] counts from
    the end when negative and is clamped to the array; [deleteCount] is
    clamped between zero and what is left after [start]. *)
Definition splice {A : Type} (start deleteCount : Z) (l : list A)
  : list A * list A :=
  let len := Z.of_nat (List.length l) in
  let actualStart :=
    if start <? 0 then Z.max (len + start) 0 else Z.min start len in
  let actualDeleteCount :=
    Z.min (Z.max deleteCount 0) (len - actualStart) in
  let s := Z.to_nat actualStart in
  let d := Z.to_nat actualDeleteCount in
  (firstn d (skipn s l), firstn s l ++ skipn (s + d)%nat l).

(** Truthiness of a string in a condition: every string but the empty
    one. *)
Definition truthy (s : string) : bool :=
  match s with
  | EmptyString => false
  | String _ _ => true
  end.

End JS.

(** ** Completions and the computations of a method *)

Inductive completion (A : Type) : Type :=
| Normal (a : A)
| Throw (e : string).

Arguments Normal {A} a.
Arguments Throw {A} e.

(** One entry of [this.messages]. *)
Record message : Type := mkMessage {
  role : string;
  content : string;
  timestamp : string
}.

(** The fields of a [ConversationMemory] object. *)
Record ConversationMemory : Type := mkMemory {
  messages : list message;
  maxMessages : Z;
  summary : string
}.

Definition set_messages (l : list message) (m : ConversationMemory) :=
  {| messages := l; maxMessages := maxMessages m; summary := summary m |}.

Definition set_summary (s : string) (m : ConversationMemory) :=
  {| messages := messages m; maxMessages := maxMessages m; summary := s |}.

(** The object returned by [getHistory]. *)
Record History : Type := mkHistory {
  hist_messages : list message;
  hist_summary : string;
  totalMessages : Z
}.

Module Method.

Definition M (A : Type) : Type :=
  ConversationMemory -> completion A * ConversationMemory.

Definition ret {A : Type} (a : A) : M A := fun m => (Normal a, m).

(** Sequencing: a throw ends the method, the writes made so far stay. *)
Definition bind {A B : Type} (c : M A) (k : A -> M B) : M B :=
  fun m =>
    match c m with
    | (Normal a, m') => k a m'
    | (Throw e, m') => (Throw e, m')
    end.

(** Reading a field (or an expression over the fields) of [this]. *)
Definition gets {A : Type} (f : ConversationMemory -> A) : M A :=
  fun m => (Normal (f m), m).

(** Assigning to fields of [this]. *)
Definition modify (f : ConversationMemory -> ConversationMemory) : M unit :=
  fun m => (Normal tt, f m).

(** The state a computation leaves, and the value it completes with. *)
Definition exec {A : Type} (c : M A) (m : ConversationMemory)
  : ConversationMemory := snd (c m).

Definition outcome {A : Type} (c : M A) (m : ConversationMemory)
  : completion A := fst (c m).

End Method.

Import Method.

Declare Scope method_scope.
Delimit Scope method_scope with method.
Notation "x <- c ;; k" := (bind c (fun x => k))
  (at level 61, c at next level, right associativity) : method_scope.
Notation "c ;; k" := (bind c (fun _ => k))
  (at level 61, right associativity) : method_scope.

(** ** The class *)

Section Class.

Local Open Scope method_scope.

(** [constructor(maxMessages = 20)]: [None] is a call without the
    argument. *)
Definition new_ConversationMemory (maxMessages : option Z)
  : ConversationMemory :=
  {| messages := [];
     maxMessages := match maxMessages with Some n => n | None => 20 end;
     summary := "" |}.

(** [this.messages.push(msg)]. *)
Definition push (msg : message) : M unit :=
  modify (fun m => set_messages (messages m ++ [msg]) m).

(** [this.messages.splice(start, deleteCount)]: the array is changed in
    place and the removed elements are the value. *)
Definition splice_messages (start deleteCount : Z) : M (list message) :=
  fun m =>
    let (removed, rest) := JS.splice start deleteCount (messages m) in
    (Normal removed, set_messages rest m).

(** The predicate of the [filter] call in [updateSummary]. *)
Definition isTaskAction (msg : message) : bool :=
  JS.includes (content msg) "created" ||
  JS.includes (content msg) "scheduled" ||
  JS.includes (content msg) "deleted" ||
  JS.includes (content msg) "updated".

Definition updateSummary (oldMessages : list message) : M unit :=
  if (Z.of_nat (List.length oldMessages) >? 0)%Z then
    let taskActions := filter isTaskAction oldMessages in
    if (Z.of_nat (List.length taskActions) >? 0)%Z then
      modify (fun m =>
        set_summary
          (summary m ++
             (JS.nl ++ "Previous session: ") ++
             JS.join "; " (map content taskActions) ++ ".") m)
    else ret tt
  else ret tt.

Definition addMessage (role content now : string) : M unit :=
  push {| role := role; content := content; timestamp := now |} ;;
  len <- gets (fun m => Z.of_nat (List.length (messages m))) ;;
  max <- gets maxMessages ;;
  if (len >? max)%Z then
    oldMessages <- splice_messages 0 (len - max) ;;
    updateSummary oldMessages
  else ret tt.

(** The body of the [forEach] callback in [getContextString]. *)
Definition appendLine (context : string) (msg : message) : string :=
  (context ++ role msg ++ ": " ++ content msg ++ JS.nl)%string.

Definition getContextString : M string :=
  let context := "" in
  s <- gets summary ;;
  let context :=
    if JS.truthy s
    then (context ++ "Summary of earlier conversation: " ++ s
            ++ JS.nl ++ JS.nl)%string
    else context in
  msgs <- gets messages ;;
  let context :=
    if (Z.of_nat (List.length msgs) >? 0)%Z
    then fold_left appendLine msgs
           (context ++ "Recent conversation:" ++ JS.nl)%string
    else context in
  ret context.

Definition clear : M unit :=
  modify (set_messages []) ;;
  modify (set_summary "").

Definition getHistory : M History :=
  msgs <- gets messages ;;
  s <- gets summary ;;
  len <- gets (fun m => Z.of_nat (List.length (messages m))) ;;
  ret {| hist_messages := msgs; hist_summary := s; totalMessages := len |}.

End Class.

(** ** Sessions: sequences of calls *)

(** The arguments of one [addMessage] call, with the time it was made at. *)
Record call : Type := mkCall {
  call_role : string;
  call_content : string;
  call_now : string
}.

Definition message_of (c : call) : message :=
  {| role := call_role c; content := call_content c; timestamp := call_now c |}.

Definition addCall (c : call) : M unit :=
  addMessage (call_role c) (call_content c) (call_now c).

(** The state after the calls of [cs], made in order on [m]. *)
Definition session (cs : list call) (m : ConversationMemory)
  : ConversationMemory :=
  fold_left (fun st c => exec (addCall c) st) cs m.

(** ** What the statements are written with *)

(** The last [n] elements of [l], in the order of [l]. *)
Definition lastn {A : Type} (n : nat) (l : list A) : list A :=
  skipn (List.length l - n) l.

(** [kw] occurs in [s]. *)
Definition occurs_in (kw s : string) : Prop :=
  exists pre post : string, s = (pre ++ kw ++ post)%string.

(** The action keywords of the summary. *)
Definition actionKeywords : list string :=
  ["created"; "scheduled"; "deleted"; "updated"].

(** The line of one message in the rendered context. *)
Definition turnLine (msg : message) : string :=
  (role msg ++ ": " ++ content msg ++ JS.nl)%string.

(** The segment [updateSummary] adds for the contents [cs]. *)
Definition summarySegment (cs : list string) : string :=
  (JS.nl ++ "Previous session: " ++ JS.join "; " cs ++ ".")%string.

(** ** The client around the memory: [mcp-ollama-client.js]

    The functions of the client that call the memory, and what they call.
    What the console shows is not part of the model; what is read from the
    terminal, the language model and the tool server comes in as arguments. *)

Module Text.

(** The double quote, for the texts that hold one. *)
Definition dq : string := String "034"%char EmptyString.

(** [String.prototype.toLowerCase] on one ASCII letter. *)
Definition lowerChar (c : ascii) : ascii :=
  let n := N_of_ascii c in
  if ((65 <=? n) && (n <=? 90))%N then ascii_of_N (n + 32) else c.

(** [String.prototype.toLowerCase] on the letters [A] to [Z]; every other
    byte is left.  The client only compares the result with ASCII words that
    have no [k] in them (the one ASCII letter a character outside ASCII, the
    Kelvin sign, lowers to), and those comparisons come out as in
    JavaScript. *)
Fixpoint toLowerCase (s : string) : string :=
  match s with
  | EmptyString => EmptyString
  | String c s' => String (lowerChar c) (toLowerCase s')
  end.

(** [String.prototype.startsWith(p)]. *)
Definition startsWith (s p : string) : bool := String.prefix p s.

(** A number in a template literal: the decimal digits of a length. *)
Definition numberToString (n : nat) : string :=
  NilEmpty.string_of_uint (Nat.to_uint n).

(** [a || b] on an optional string: [b] when [a] is missing or empty. *)
Definition orElse (a : option string) (b : string) : string :=
  match a with
  | Some s => if JS.truthy s then s else b
  | None => b
  end.

(** Truthiness of an optional string. *)
Definition truthyOpt (a : option string) : bool :=
  match a with
  | Some s => JS.truthy s
  | None => false
  end.

(** The greedy [[\s\S]*\}] at the start of [s]: the longest prefix of [s]
    that ends with a closing brace. *)
Fixpoint upToLastBrace (s : string) : option string :=
  match s with
  | EmptyString => None
  | String c s' =>
      match upToLastBrace s' with
      | Some t => Some (String c t)
      | None => if Ascii.eqb c "}" then Some (String c EmptyString) else None
      end
  end.

(** [s.match(/\{[\s\S]*\}/)]: the positions are tried from the left, and at
    an opening brace the rest is matched greedily; [None] is [null], and
    [Some j] is [jsonMatch[0]]. *)
Fixpoint jsonMatch (s : string) : option string :=
  match s with
  | EmptyString => None
  | String c s' =>
      if Ascii.eqb c "{" then
        match upToLastBrace s' with
        | Some t => Some (String c t)
        | None => jsonMatch s'
        end
      else jsonMatch s'
  end.

(** A text from the codes of its bytes. *)
Definition bytes (codes : list nat) : string :=
  string_of_list_ascii (map ascii_of_nat codes).

(** The white space and the line terminators of JavaScript, which [trim]
    removes and [\s] matches, in UTF-8: U+0009 to U+000D, U+0020, U+00A0,
    U+1680, U+2000 to U+200A, U+2028, U+2029, U+202F, U+205F, U+3000 and
    U+FEFF. *)
Definition whiteSpace : list string :=
  map bytes
    [[9]; [10]; [11]; [12]; [13]; [32]; [194; 160]; [225; 154; 128];
     [226; 128; 128]; [226; 128; 129]; [226; 128; 130]; [226; 128; 131];
     [226; 128; 132]; [226; 128; 133]; [226; 128; 134]; [226; 128; 135];
     [226; 128; 136]; [226; 128; 137]; [226; 128; 138]; [226; 128; 168];
     [226; 128; 169]; [226; 128; 175]; [226; 129; 159]; [227; 128; 128];
     [239; 187; 191]]%nat.

(** [s] without the prefix [p], when it starts with it. *)
Fixpoint stripPrefix (p s : string) : option string :=
  match p with
  | EmptyString => Some s
  | String a p' =>
      match s with
      | EmptyString => None
      | String b s' => if Ascii.eqb a b then stripPrefix p' s' else None
      end
  end.

(** [s] without the one character of [chars] it starts with, if any. *)
Definition dropOne (chars : list string) (s : string) : option string :=
  fold_right
    (fun w rest =>
       match stripPrefix w s with Some r => Some r | None => rest end)
    None chars.

(** [s] without the characters of [chars] at its start. *)
Fixpoint dropAll (fuel : nat) (chars : list string) (s : string) : string :=
  match fuel with
  | O => s
  | S fuel' =>
      match dropOne chars s with
      | Some r => dropAll fuel' chars r
      | None => s
      end
  end.

Definition reverse (s : string) : string :=
  string_of_list_ascii (rev (list_ascii_of_string s)).

(** [String.prototype.trimStart], [trimEnd] and [trim]. *)
Definition trimStart (s : string) : string :=
  dropAll (String.length s) whiteSpace s.

Definition trimEnd (s : string) : string :=
  reverse (dropAll (String.length s) (map reverse whiteSpace) (reverse s)).

Definition trim (s : string) : string := trimEnd (trimStart s).

(** [String.prototype.split(sep)] for a separator of one character. *)
Fixpoint split (sep : ascii) (s : string) : list string :=
  match s with
  | EmptyString => [EmptyString]
  | String c s' =>
      if Ascii.eqb c sep then EmptyString :: split sep s'
      else match split sep s' with
           | piece :: pieces => String c piece :: pieces
           | [] => [String c EmptyString]
           end
  end.

(** [\d]: the digits [0] to [9]. *)
Definition isDigit (c : ascii) : bool :=
  ((48 <=? N_of_ascii c) && (N_of_ascii c <=? 57))%N.

(** [parseInt] on a text of digits. *)
Definition parseInt (s : string) : Z :=
  fold_left (fun acc c => 10 * acc + (Z.of_N (N_of_ascii c) - 48))
    (list_ascii_of_string s) 0.

(** The greedy [\d{0,2}] at the start of [s]: the digits taken and the
    rest. *)
Definition upToTwoDigits (s : string) : string * string :=
  match s with
  | String a r =>
      if isDigit a then
        match r with
        | String b r' =>
            if isDigit b then (String a (String b EmptyString), r')
            else (String a EmptyString, r)
        | EmptyString => (String a EmptyString, r)
        end
      else (EmptyString, s)
  | EmptyString => (EmptyString, s)
  end.

(** [timeInput.match(/(\d{1,2}):?(\d{0,2})\s*(am|pm)?/i)]: the three groups;
    the third is [None] when it took no part.  The match starts at the
    first digit of the text; every part after the first group can match
    the empty text, so each part takes all it can. *)
Fixpoint timeMatch (s : string) : option (string * string * option string) :=
  match s with
  | EmptyString => None
  | String c s' =>
      if isDigit c then
        let (group1, afterHours) := upToTwoDigits s in
        let afterColon :=
          match afterHours with
          | String ":" r => r
          | _ => afterHours
          end in
        let (group2, afterMinutes) := upToTwoDigits afterColon in
        let afterSpace :=
          dropAll (String.length afterMinutes) whiteSpace afterMinutes in
        let group3 :=
          match afterSpace with
          | String a (String b _) =>
              if (Ascii.eqb (lowerChar a) "a" || Ascii.eqb (lowerChar a) "p")
                 && Ascii.eqb (lowerChar b) "m"
              then Some (String a (String b EmptyString))
              else None
          | _ => None
          end in
        Some (group1, group2, group3)
      else timeMatch s'
  end.

End Text.

(** A task as the tool server returns it. *)
Record task : Type := mkTask {
  task_id : string;
  task_title : string;
  task_description : option string;
  task_start : string;
  task_end : string;
  task_tags : list string;
  task_color : option string
}.

(** The object the language model is asked for. *)
Record llmResult : Type := mkLlmResult {
  action : string;
  parameters : string;
  explanation : option string;
  missing_info : option (list string);
  validation_summary : option string
}.

(** [response.data.result] of a tool call. *)
Record toolResult : Type := mkToolResult {
  res_success : bool;
  res_tasks : option (list task);
  res_message : option string;
  res_task : option task;
  res_error : option string
}.

(** How a turn of [chatLoop] ends: [chatLoop()] is called again, or the
    terminal is closed. *)
Inductive control : Type := Continue | Closed.

(** What a turn of [chatLoop] did outside the memory. *)
Record turn : Type := mkTurn {
  next : control;
  asked : bool;
  toolCalls : list (string * string)
}.

Section Client.

Local Open Scope method_scope.

(** The request to the language model: from the conversation context and the
    user's message to [response.data.response], or the error thrown. *)
Variable post : string -> string -> completion string.

(** [JSON.parse], to the object or the error it throws. *)
Variable JSON_parse : string -> completion llmResult.

(** [executeMCPTool(action, parameters)]: the result, or the error thrown. *)
Variable executeMCPTool : string -> string -> completion toolResult.

(** [new Date(s).toLocaleDateString()] and [new Date(s).toLocaleTimeString()]. *)
Variable toLocaleDateString : string -> string.
Variable toLocaleTimeString : string -> string.

(** A value computed without the memory. *)
Definition lift {A : Type} (c : completion A) : M A := fun m => (c, m).

(** The parsing of the model's reply in [processWithOllama]. *)
Definition parseResponse (llmResponse : string) : completion llmResult :=
  match JSON_parse llmResponse with
  | Normal parsedResponse => Normal parsedResponse
  | Throw _ =>
      match Text.jsonMatch llmResponse with
      | Some j => JSON_parse j
      | None => Throw "Could not parse LLM response as JSON"
      end
  end.

Definition processWithOllama (userMessage now : string) : M llmResult :=
  addMessage "user" userMessage now ;;
  conversationContext <- getContextString ;;
  lift match post conversationContext userMessage with
       | Normal llmResponse => parseResponse llmResponse
       | Throw e => Throw e
       end.

(** The callback of [askForConfirmation], on the answer typed. *)
Definition askForConfirmation (answer : string) : bool :=
  Text.startsWith (Text.toLowerCase answer) "y".

(** The text [chatLoop] builds in [assistantResponse] from the model's
    object and the tool's result. *)
Definition assistantResponse (llm : llmResult) (result : toolResult)
  : string :=
  let assistantResponse := Text.orElse (explanation llm) "Action completed" in
  if res_success result then
    if String.eqb (action llm) "list_tasks"
       && match res_tasks result with Some _ => true | None => false end
    then
      let tasks :=
        match res_tasks result with Some ts => ts | None => [] end in
      if (Z.of_nat (List.length tasks) =? 0)%Z
      then (assistantResponse ++ ". No tasks found.")%string
      else (assistantResponse ++ ". Found "
              ++ Text.numberToString (List.length tasks) ++ " tasks: "
              ++ JS.join ", " (map task_title tasks) ++ ".")%string
    else if Text.truthyOpt (res_message result) then
      (assistantResponse ++ ". " ++ Text.orElse (res_message result) "")%string
    else
      match res_task result with
      | Some t =>
          (assistantResponse ++ ". Successfully created task: "
             ++ Text.dq ++ task_title t ++ Text.dq ++ " scheduled for "
             ++ toLocaleDateString (task_start t) ++ " at "
             ++ toLocaleTimeString (task_start t) ++ ".")%string
      | None =>
          (assistantResponse ++ ". Action completed successfully.")%string
      end
  else
    (assistantResponse ++ ". Error: "
       ++ Text.orElse (res_error result) "Unknown error")%string.

(** The [catch] of [chatLoop]: the error goes into the memory and the loop
    goes on. *)
Definition recordError (e now : string) (didAsk : bool)
  (calls : list (string * string)) : M turn :=
  addMessage "assistant" ("Error occurred: " ++ e) now ;;
  ret (mkTurn Continue didAsk calls).

(** One turn of [chatLoop]: the line typed at [You:], the answer typed if the
    confirmation is asked, and the times of the two messages the turn can
    record. *)
Definition chatLoop (input answer nowUser nowAssistant : string) : M turn :=
  let lower := Text.toLowerCase input in
  if String.eqb lower "exit" || String.eqb lower "quit" then
    history <- getHistory ;;
    ret (mkTurn Closed false [])
  else if String.eqb lower "memory" || String.eqb lower "history" then
    history <- getHistory ;;
    ret (mkTurn Continue false [])
  else if String.eqb lower "clear memory" then
    clear ;;
    ret (mkTurn Continue false [])
  else
    fun m =>
      match processWithOllama input nowUser m with
      | (Throw e, m1) => recordError e nowAssistant false [] m1
      | (Normal llm, m1) =>
          if String.eqb (action llm) "ask_clarification" then
            match missing_info llm with
            | Some (info :: infos) =>
                (addMessage "assistant"
                   ("Asked for clarification: "
                      ++ JS.join ", " (info :: infos)) nowAssistant ;;
                 ret (mkTurn Continue false [])) m1
            | _ => ret (mkTurn Continue false []) m1
            end
          else
            let asks := Text.truthyOpt (validation_summary llm) in
            if asks && negb (askForConfirmation answer) then
              (addMessage "assistant" "Action was cancelled by user"
                 nowAssistant ;;
               ret (mkTurn Continue true [])) m1
            else
              let called := [(action llm, parameters llm)] in
              match executeMCPTool (action llm) (parameters llm) with
              | Throw e => recordError e nowAssistant asks called m1
              | Normal result =>
                  (addMessage "assistant" (assistantResponse llm result)
                     nowAssistant ;;
                   ret (mkTurn Continue asks called)) m1
              end
      end.

End Client.

(** ** The replies of the tool server: [mcp-server.js]

    The request to the task API is an argument: what it answered, or the
    error it failed with. *)

Definition createTask (title : string) (posted : completion task)
  : completion toolResult :=
  match posted with
  | Normal data =>
      Normal {| res_success := true;
                res_tasks := None;
                res_message :=
                  Some ("Task " ++ Text.dq ++ title ++ Text.dq
                          ++ " created successfully")%string;
                res_task := Some data;
                res_error := None |}
  | Throw e => Throw ("Failed to create task: " ++ e)
  end.

Definition updateTask (put : completion task) : completion toolResult :=
  match put with
  | Normal data =>
      Normal {| res_success := true;
                res_tasks := None;
                res_message := Some "Task updated successfully"%string;
                res_task := Some data;
                res_error := None |}
  | Throw e => Throw ("Failed to update task: " ++ e)
  end.

Definition deleteTask (deleted : completion unit) : completion toolResult :=
  match deleted with
  | Normal _ =>
      Normal {| res_success := true;
                res_tasks := None;
                res_message := Some "Task deleted successfully"%string;
                res_task := None;
                res_error := None |}
  | Throw e => Throw ("Failed to delete task: " ++ e)
  end.

(** ** The demonstration: [demo-memory.js] *)

Section Demo.

Local Open Scope method_scope.

(** [demoMemory], on its own memory of five messages; [now k] is the clock
    at the [k]-th message; [result1] and [result3] are the [task] of the
    results of the two [create_task] calls and [result2] the [tasks] of the
    result of [list_tasks], or the errors the calls throw. *)
Definition demoMemory (now : nat -> string)
  (result1 : completion task) (result2 : completion (list task))
  (result3 : completion task) : M History :=
  addMessage "user" "Schedule a team meeting tomorrow at 3pm" (now 0%nat) ;;
  r1 <- lift result1 ;;
  addMessage "assistant"
    ("Created task: " ++ Text.dq ++ task_title r1 ++ Text.dq
       ++ " for tomorrow at 3pm") (now 1%nat) ;;
  addMessage "user" "Show me my tasks" (now 2%nat) ;;
  r2 <- lift result2 ;;
  addMessage "assistant"
    ("Found " ++ Text.numberToString (List.length r2)
       ++ " tasks including the team meeting") (now 3%nat) ;;
  addMessage "user" "Change that meeting to 4pm instead" (now 4%nat) ;;
  addMessage "assistant" "Updated the team meeting time to 4pm" (now 5%nat) ;;
  addMessage "user" "Also schedule a doctor appointment for Friday"
    (now 6%nat) ;;
  r3 <- lift result3 ;;
  addMessage "assistant"
    ("Created task: " ++ Text.dq ++ task_title r3 ++ Text.dq ++ " for Friday")
    (now 7%nat) ;;
  context <- getContextString ;;
  getHistory.

End Demo.

(** ** The command line without the model: [simpleCLI] *)

(** The tags a task can carry. *)
Definition allowedTags : list string :=
  ["work"; "personal"; "family"; "health"; "other"]%string.

(** The callback of [askForMissingInfo], on the answer typed: the prompts
    of [create] get the answer without the white space at its ends. *)
Definition askForMissingInfo (answer : string) : string := Text.trim answer.

(** The tags of [create], from [tagsInput], the value [askForMissingInfo]
    gave for the tags prompt. *)
Definition processTags (tagsInput : string) : list string :=
  if JS.truthy tagsInput then
    filter (fun t => existsb (String.eqb t) allowedTags)
      (map Text.trim (Text.split "," tagsInput))
  else ["other"%string].

(** The time of [create], from [timeInput], the value [askForMissingInfo]
    gave for the time prompt: the hours and minutes given to [setHours], or
    [None] when [setHours] is not called and the time of day stays that of
    the clock. *)
Definition processTime (timeInput : string) : option (Z * Z) :=
  if JS.truthy timeInput then
    match Text.timeMatch timeInput with
    | Some (group1, group2, ampm) =>
        let hours := Text.parseInt group1 in
        let minutes :=
          Text.parseInt (if JS.truthy group2 then group2 else "0"%string) in
        let hours :=
          match ampm with
          | Some ap =>
              if String.eqb (Text.toLowerCase ap) "pm" && negb (hours =? 12)
              then hours + 12
              else if String.eqb (Text.toLowerCase ap) "am" && (hours =? 12)
              then 0
              else hours
          | None => hours
          end in
        Some (hours, minutes)
    | None => None
    end
  else Some (9, 0).


(** [n] spaces. *)
Definition spaces (n : nat) : string :=
  string_of_list_ascii (repeat " "%char n).

(** A number below 100 written with two digits. *)
Definition twoDigits (n : nat) : string :=
  if (n <? 10)%nat then ("0" ++ Text.numberToString n)%string
  else Text.numberToString n.

(** ** The queries of the tool server: [listTasks] and [searchTasks] *)

(** What the two queries answer: [success] is always [true]. *)
Record queryReply : Type := mkQueryReply {
  reply_count : Z;
  reply_tasks : list task
}.

Section Queries.

(** [new Date(s).toDateString()] and [String.prototype.toLowerCase]. *)
Variable toDateString : string -> string.
Variable toLowerCase : string -> string.

(** [listTasks(args)]: [fetched] is what the task API returned; the copy of
    the fields keeps all the fields of [task]. *)
Definition listTasks (date : option string) (tags : option (list string))
  (fetched : completion (list task)) : completion queryReply :=
  match fetched with
  | Throw e => Throw ("Failed to list tasks: " ++ e)
  | Normal tasks =>
      let tasks :=
        match date with
        | Some d =>
            if JS.truthy d then
              filter (fun t =>
                        String.eqb (toDateString (task_start t))
                          (toDateString d)) tasks
            else tasks
        | None => tasks
        end in
      let tasks :=
        match tags with
        | Some (tag :: others) =>
            filter (fun t =>
                      existsb (fun x => existsb (String.eqb x) (tag :: others))
                        (task_tags t)) tasks
        | _ => tasks
        end in
      Normal {| reply_count := Z.of_nat (List.length tasks);
                reply_tasks := tasks |}
  end.

(** The copy of the fields in [searchTasks]: the colour is left out. *)
Definition withoutColor (t : task) : task :=
  {| task_id := task_id t; task_title := task_title t;
     task_description := task_description t; task_start := task_start t;
     task_end := task_end t; task_tags := task_tags t; task_color := None |}.

Definition searchTasks (query : string) (fetched : completion (list task))
  : completion queryReply :=
  match fetched with
  | Throw e => Throw ("Failed to search tasks: " ++ e)
  | Normal data =>
      let query := toLowerCase query in
      let matchingTasks :=
        filter (fun t =>
                  JS.includes (toLowerCase (task_title t)) query
                  || match task_description t with
                     | Some d =>
                         JS.truthy d && JS.includes (toLowerCase d) query
                     | None => false
                     end) data in
      Normal {| reply_count := Z.of_nat (List.length matchingTasks);
                reply_tasks := map withoutColor matchingTasks |}
  end.

End Queries.

(** The lines [chatLoop] takes as commands, compared in lower case. *)
Definition commands : list string :=
  ["exit"; "quit"; "memory"; "history"; "clear memory"]%string.

(** The text the summary holds for the evicted messages [evicted], when they
    left one at a time: one segment per message that passes the filter. *)
Definition digest (evicted : list message) : string :=
  fold_right
    (fun msg acc => (summarySegment [content msg] ++ acc)%string)
    ""%string
    (filter isTaskAction evicted).

(** ** Strings *)

Section Strings.

Lemma append_assoc (a b c : string) :
  ((a ++ b) ++ c = a ++ (b ++ c))%string.
Proof.
  induction a as [|x a IH]; simpl; [reflexivity | now rewrite IH].
Qed.

Lemma append_nil_r (a : string) : (a ++ "" = a)%string.
Proof.
  induction a as [|x a IH]; simpl; [reflexivity | now rewrite IH].
Qed.

Lemma prefix_append (p s : string) :
  String.prefix p s = true <-> exists t, s = (p ++ t)%string.
Proof.
  revert s; induction p as [|a p IH]; intros s.
  - destruct s; simpl; split; intros _; try reflexivity;
      eexists; reflexivity.
  - destruct s as [|b s]; simpl.
    + split; [discriminate | intros [t Ht]; discriminate].
    + destruct (ascii_dec a b) as [->|Hab].
      * rewrite IH. split; intros [t Ht]; exists t.
        -- now rewrite Ht.
        -- now inversion Ht.
      * split; [discriminate | intros [t Ht]; inversion Ht; congruence].
Qed.

Lemma includes_occurs (s pat : string) :
  JS.includes s pat = true <-> occurs_in pat s.
Proof.
  unfold occurs_in.
  induction s as [|a s IH]; cbn [JS.includes];
    rewrite orb_true_iff, prefix_append.
  - split.
    + intros [[t Ht]|H]; [|discriminate]. exists ""%string, t. exact Ht.
    + intros [pre [post H]]. left.
      destruct pre; [exists post; exact H|discriminate].
  - rewrite IH. split.
    + intros [[t Ht]|[pre [post H]]].
      * exists ""%string, t. exact Ht.
      * exists (String a pre), post. simpl. now rewrite H.
    + intros [pre [post H]]. destruct pre as [|b pre]; simpl in H.
      * left. exists post. exact H.
      * right. exists pre, post. now inversion H.
Qed.

Lemma truthy_false (s : string) : JS.truthy s = false <-> s = ""%string.
Proof. destruct s; simpl; split; congruence. Qed.

Lemma length_append (a b : string) :
  String.length (a ++ b) = (String.length a + String.length b)%nat.
Proof. induction a as [|x a IH]; simpl; [reflexivity | now rewrite IH]. Qed.

End Strings.

(** ** Arrays *)

Section Arrays.

Context {A : Type}.

(** [splice(0, d)] cuts the array after its first [d] elements. *)
Lemma splice_front (d : Z) (l : list A) :
  JS.splice 0 d l = (firstn (Z.to_nat d) l, skipn (Z.to_nat d) l).
Proof.
  unfold JS.splice. cbn [Z.ltb Z.compare].
  set (len := Z.of_nat (List.length l)).
  assert (Hlen : 0 <= len) by (subst len; lia).
  replace (Z.min 0 len) with 0 by lia.
  cbn [Z.to_nat firstn skipn app Nat.add]. rewrite Z.sub_0_r.
  destruct (Z_le_gt_dec d len) as [Hd|Hd].
  - replace (Z.min (Z.max d 0) len) with (Z.max d 0) by lia.
    replace (Z.to_nat (Z.max d 0)) with (Z.to_nat d) by lia. reflexivity.
  - replace (Z.min (Z.max d 0) len) with len by lia.
    subst len. rewrite Nat2Z.id, firstn_all, skipn_all.
    rewrite firstn_all2, skipn_all2 by lia. reflexivity.
Qed.

Lemma lastn_short (n : nat) (l : list A) :
  (List.length l <= n)%nat -> lastn n l = l.
Proof.
  intros H. unfold lastn. replace (List.length l - n)%nat with 0%nat by lia.
  reflexivity.
Qed.

Lemma length_lastn (n : nat) (l : list A) :
  List.length (lastn n l) = Nat.min n (List.length l).
Proof. unfold lastn. rewrite length_skipn. lia. Qed.

(** Keeping the last [n] after each insertion keeps the last [n] of
    everything inserted. *)
Lemma lastn_snoc (n : nat) (l : list A) (x : A) :
  lastn n (lastn n l ++ [x]) = lastn n (l ++ [x]).
Proof.
  unfold lastn at 1 3. rewrite !length_app, length_lastn. cbn [List.length].
  destruct (Nat.le_gt_cases (List.length l) n) as [H|H].
  - rewrite lastn_short by exact H.
    now replace (Nat.min n (List.length l)) with (List.length l) by lia.
  - unfold lastn.
    replace (Nat.min n (List.length l) + 1 - n)%nat with 1%nat by lia.
    rewrite !skipn_app, length_skipn, skipn_skipn.
    replace (1 + (List.length l - n))%nat
      with (List.length l + 1 - n)%nat by lia.
    replace (1 - (List.length l - (List.length l - n)))%nat
      with (List.length l + 1 - n - List.length l)%nat by lia.
    reflexivity.
Qed.

End Arrays.

(** ** The methods, run on a state *)

Section Runs.

Lemma filter_nonempty_existsb {A : Type} (f : A -> bool) (l : list A) :
  (Z.of_nat (List.length (filter f l)) >? 0) = existsb f l.
Proof.
  induction l as [|x l IH]; [reflexivity|].
  cbn [filter existsb]. destruct (f x); [|exact IH].
  cbn [List.length orb]. rewrite Z.gtb_ltb. apply Z.ltb_lt. lia.
Qed.

(** [updateSummary] never throws; it writes [summary] when some old
    message passes the filter, and nothing otherwise. *)
Lemma updateSummary_run (oldMessages : list message) (m : ConversationMemory) :
  updateSummary oldMessages m =
  (Normal tt,
   if existsb isTaskAction oldMessages
   then set_summary
          (summary m ++
             summarySegment (map content (filter isTaskAction oldMessages)))
          m
   else m).
Proof.
  unfold updateSummary.
  destruct oldMessages as [|msg old]; [reflexivity|].
  replace (Z.of_nat (List.length (msg :: old)) >? 0) with true
    by (symmetry; rewrite Z.gtb_ltb; apply Z.ltb_lt; cbn [List.length]; lia).
  rewrite filter_nonempty_existsb.
  destruct (existsb isTaskAction (msg :: old)); reflexivity.
Qed.

(** [addMessage], with the built-ins computed: the array after the push is
    cut in two when it is longer than the limit, the front goes to
    [updateSummary] and the back stays. *)
Lemma addMessage_run (r c now : string) (m : ConversationMemory) :
  addMessage r c now m =
  let pushed := messages m ++ [mkMessage r c now] in
  let count := Z.of_nat (List.length pushed) in
  if count >? maxMessages m then
    updateSummary (firstn (Z.to_nat (count - maxMessages m)) pushed)
      (set_messages (skipn (Z.to_nat (count - maxMessages m)) pushed) m)
  else (Normal tt, set_messages pushed m).
Proof.
  unfold addMessage, push, bind, gets, modify, splice_messages, ret.
  cbn [messages maxMessages set_messages].
  destruct (_ >? _); [|reflexivity].
  rewrite splice_front. reflexivity.
Qed.

Lemma addMessage_normal (r c now : string) (m : ConversationMemory) :
  outcome (addMessage r c now) m = Normal tt.
Proof.
  unfold outcome. rewrite addMessage_run. cbv zeta.
  destruct (_ >? _); [|reflexivity].
  rewrite updateSummary_run. reflexivity.
Qed.

Lemma addMessage_maxMessages (r c now : string) (m : ConversationMemory) :
  maxMessages (exec (addMessage r c now) m) = maxMessages m.
Proof.
  unfold exec. rewrite addMessage_run. cbv zeta.
  destruct (_ >? _); [|reflexivity].
  rewrite updateSummary_run. cbn [snd].
  destruct (existsb _ _); reflexivity.
Qed.

(** The messages [addMessage] leaves: the back of the pushed array. *)
Lemma addMessage_messages (r c now : string) (m : ConversationMemory) :
  messages (exec (addMessage r c now) m) =
  skipn (Z.to_nat (Z.of_nat (List.length (messages m)) + 1 - maxMessages m))
    (messages m ++ [mkMessage r c now]).
Proof.
  unfold exec. rewrite addMessage_run. cbv zeta.
  rewrite length_app. cbn [List.length].
  replace (Z.of_nat (List.length (messages m) + 1))
    with (Z.of_nat (List.length (messages m)) + 1) by lia.
  destruct (_ >? _) eqn:Hgt.
  - rewrite updateSummary_run. cbn [snd].
    destruct (existsb _ _); reflexivity.
  - cbn [snd set_messages messages].
    replace (Z.to_nat _) with 0%nat; [reflexivity|].
    rewrite Z.gtb_ltb in Hgt. apply Z.ltb_ge in Hgt. lia.
Qed.

Lemma addMessage_lastn (r c now : string) (m : ConversationMemory) :
  messages (exec (addMessage r c now) m) =
  lastn (Z.to_nat (maxMessages m)) (messages m ++ [mkMessage r c now]).
Proof.
  rewrite addMessage_messages. unfold lastn.
  destruct (Z_lt_le_dec (maxMessages m) 0) as [Hneg|Hpos].
  - rewrite !skipn_all2; [reflexivity| |];
      rewrite length_app; cbn [List.length]; lia.
  - f_equal. rewrite length_app. cbn [List.length]. lia.
Qed.

Lemma session_snoc (cs : list call) (c : call) (m : ConversationMemory) :
  session (cs ++ [c]) m = exec (addCall c) (session cs m).
Proof. unfold session. now rewrite fold_left_app. Qed.

Lemma session_maxMessages (cs : list call) (m : ConversationMemory) :
  maxMessages (session cs m) = maxMessages m.
Proof.
  induction cs as [|c cs IH] using rev_ind; [reflexivity|].
  rewrite session_snoc. unfold addCall.
  now rewrite addMessage_maxMessages.
Qed.

(** A session keeps the last [maxMessages] of what it started with and
    what was recorded. *)
Lemma session_lastn (cs : list call) (m : ConversationMemory) :
  cs <> [] ->
  messages (session cs m) =
  lastn (Z.to_nat (maxMessages m)) (messages m ++ map message_of cs).
Proof.
  induction cs as [|c cs IH] using rev_ind; [congruence|]. intros _.
  rewrite session_snoc. unfold addCall.
  rewrite addMessage_lastn, session_maxMessages.
  rewrite map_app, app_assoc. cbn [map].
  destruct cs as [|c0 cs0].
  - cbn [map session fold_left]. now rewrite app_nil_r.
  - rewrite IH by discriminate. apply lastn_snoc.
Qed.

(** The loop of [getContextString] adds one line per message, in the
    order of the array. *)
Lemma fold_appendLine (msgs : list message) (context : string) :
  fold_left appendLine msgs context =
  (context ++ String.concat "" (map turnLine msgs))%string.
Proof.
  revert context; induction msgs as [|msg msgs IH]; intros context.
  - cbn. now rewrite append_nil_r.
  - cbn [fold_left map]. rewrite IH. unfold appendLine.
    change (role msg ++ ": " ++ content msg ++ JS.nl)%string
      with (turnLine msg).
    rewrite append_assoc. f_equal.
    destruct msgs as [|msg' msgs]; cbn [map String.concat].
    + now rewrite append_nil_r.
    + reflexivity.
Qed.

End Runs.

(** ** The filter of the summary *)

Section Filter.

Lemma isTaskAction_keywords (msg : message) :
  isTaskAction msg = true <->
  exists kw, In kw actionKeywords /\ occurs_in kw (content msg).
Proof.
  unfold isTaskAction, actionKeywords.
  rewrite !orb_true_iff, !includes_occurs. cbn [In]. split.
  - intros [[[H|H]|H]|H]; eexists; (split; [|exact H]); tauto.
  - intros [kw [[<-|[<-|[<-|[<-|[]]]]] H]]; tauto.
Qed.

Lemma existsb_isTaskAction (old : list message) :
  existsb isTaskAction old = true <->
  exists msg kw,
    In msg old /\ In kw actionKeywords /\ occurs_in kw (content msg).
Proof.
  rewrite existsb_exists. split.
  - intros [msg [Hin H]]. apply isTaskAction_keywords in H.
    destruct H as [kw [Hkw Hocc]]. now exists msg, kw.
  - intros [msg [kw [Hin [Hkw Hocc]]]]. exists msg. split; [exact Hin|].
    apply isTaskAction_keywords. now exists kw.
Qed.

End Filter.

(** ** The window *)

(** C1: on a memory constructed with a positive [maxMessages], after each
    call of every sequence of [addMessage] calls (after the first [k] calls
    of [cs], for every [k]) the number of retained messages, which is the
    [totalMessages] that [getHistory] reports, is at most [maxMessages]. *)
Theorem addMessage_bounded (max : Z) (cs : list call) (k : nat) :
  0 < max ->
  Z.of_nat
    (List.length
       (messages (session (firstn k cs) (new_ConversationMemory (Some max)))))
    <= max /\
  exists h,
    outcome getHistory
      (session (firstn k cs) (new_ConversationMemory (Some max))) = Normal h /\
    totalMessages h <= max.
Proof.
  intros Hmax.
  assert (Hlen : forall pre : list call,
            Z.of_nat (List.length
              (messages (session pre (new_ConversationMemory (Some max)))))
            <= max).
  { intros [|c pre].
    - cbn. lia.
    - rewrite session_lastn by discriminate.
      rewrite length_lastn. cbn [maxMessages new_ConversationMemory]. lia. }
  split; [apply Hlen|].
  eexists. split; [reflexivity|]. apply Hlen.
Qed.

(** C2: on a memory with a positive [maxMessages], the messages retained
    after a session are the last [maxMessages] of the recorded ones (all of
    them when fewer were recorded), in the order they were recorded; and one
    [addMessage] on any state cuts the pushed array into the oldest
    [count - maxMessages] messages, which it hands to [updateSummary], and
    the newest [maxMessages], which it keeps; at or under the limit nothing
    is evicted. *)
Theorem addMessage_keeps_most_recent (max : Z) :
  0 < max ->
  (forall cs : list call,
     messages (session cs (new_ConversationMemory (Some max))) =
     lastn (Z.to_nat max) (map message_of cs)) /\
  (forall (m : ConversationMemory) (r c now : string),
     maxMessages m = max ->
     let pushed := messages m ++ [mkMessage r c now] in
     let count := Z.of_nat (List.length pushed) in
     let evicted := firstn (Z.to_nat (count - max)) pushed in
     let retained := skipn (Z.to_nat (count - max)) pushed in
     pushed = evicted ++ retained /\
     if count >? max
     then Z.of_nat (List.length evicted) = count - max /\
          Z.of_nat (List.length retained) = max /\
          addMessage r c now m =
            updateSummary evicted (set_messages retained m)
     else evicted = [] /\
          addMessage r c now m = (Normal tt, set_messages pushed m)).
Proof.
  intros Hmax. split.
  - intros [|c cs]; [reflexivity|].
    now rewrite session_lastn by discriminate.
  - intros m r c now Hm pushed count evicted retained.
    split; [symmetry; apply firstn_skipn|].
    pose proof (addMessage_run r c now m) as Hrun. cbv zeta in Hrun.
    rewrite Hm in Hrun. fold pushed count in Hrun.
    destruct (count >? max) eqn:Hgt.
    + rewrite Z.gtb_ltb in Hgt. apply Z.ltb_lt in Hgt.
      subst evicted retained.
      rewrite length_firstn, length_skipn. fold count.
      repeat split; [lia | lia | exact Hrun].
    + rewrite Z.gtb_ltb in Hgt. apply Z.ltb_ge in Hgt.
      split; [|exact Hrun]. subst evicted.
      now replace (Z.to_nat (count - max)) with 0%nat by lia.
Qed.

(** C3: the scenario with a limit of 3.  After the three first calls nothing
    is evicted; the fourth call removes exactly the user's message
    ["Schedule a meeting"] and hands it to [updateSummary], which leaves the
    summary empty; three messages stay, the last three, in order.  When the
    evicted message is the assistant's ["created the meeting"] (by a fifth
    call of the same session, or in a session that starts with it), the
    summary is no longer empty and contains ["created the meeting"]. *)
Theorem scenario_limit_three (t1 t2 t3 t4 : string) :
  let u1 := mkMessage "user" "Schedule a meeting" t1 in
  let a2 := mkMessage "assistant" "created the meeting" t2 in
  let u3 := mkMessage "user" "show tasks" t3 in
  let a4 := mkMessage "assistant" "found 1 task" t4 in
  let m3 := session [mkCall "user" "Schedule a meeting" t1;
                     mkCall "assistant" "created the meeting" t2;
                     mkCall "user" "show tasks" t3]
              (new_ConversationMemory (Some 3)) in
  let m4 := exec (addMessage "assistant" "found 1 task" t4) m3 in
  m3 = mkMemory [u1; a2; u3] 3 "" /\
  splice_messages 0 (4 - 3) (exec (push a4) m3)
    = (Normal [u1], mkMemory [a2; u3; a4] 3 "") /\
  addMessage "assistant" "found 1 task" t4 m3
    = updateSummary [u1] (mkMemory [a2; u3; a4] 3 "") /\
  m4 = mkMemory [a2; u3; a4] 3 "" /\
  outcome getHistory m4 = Normal (mkHistory [a2; u3; a4] "" 3) /\
  (forall (r c t5 : string),
     splice_messages 0 (4 - 3) (exec (push (mkMessage r c t5)) m4)
       = (Normal [a2], mkMemory [u3; a4; mkMessage r c t5] 3 "") /\
     summary (exec (addMessage r c t5) m4)
       = (JS.nl ++ "Previous session: created the meeting.")%string /\
     summary (exec (addMessage r c t5) m4) <> ""%string /\
     JS.includes (summary (exec (addMessage r c t5) m4))
       "created the meeting" = true) /\
  (forall (r c t5 : string),
     summary (session [mkCall "assistant" "created the meeting" t2;
                       mkCall "user" "show tasks" t3;
                       mkCall "assistant" "found 1 task" t4;
                       mkCall r c t5]
                (new_ConversationMemory (Some 3)))
       = (JS.nl ++ "Previous session: created the meeting.")%string).
Proof.
  intros u1 a2 u3 a4 m3 m4.
  split; [reflexivity|]. split; [reflexivity|]. split; [reflexivity|].
  split; [reflexivity|]. split; [reflexivity|]. split.
  - intros r c t5. split; [reflexivity|]. split; [reflexivity|].
    split; [discriminate | reflexivity].
  - intros r c t5. reflexivity.
Qed.

(** ** The summary *)

(** C4: for every batch handed to [updateSummary], the call completes
    normally and leaves the messages and the limit alone.  When no message
    of the batch contains an action keyword the summary is unchanged; when
    at least one does, the summary afterwards is the old one followed by
    exactly one segment: the lead-in (a line feed and
    ["Previous session: "]), the contents of the matching messages joined by
    ["; "], and the terminator ["."].  A message matches when its content
    contains one of the four keywords. *)
Theorem updateSummary_segment
  (oldMessages : list message) (m : ConversationMemory) :
  outcome (updateSummary oldMessages) m = Normal tt /\
  messages (exec (updateSummary oldMessages) m) = messages m /\
  maxMessages (exec (updateSummary oldMessages) m) = maxMessages m /\
  summary (exec (updateSummary oldMessages) m) =
    (if existsb isTaskAction oldMessages
     then summary m ++
          String "010" "Previous session: " ++
          String.concat "; "
            (map content (filter isTaskAction oldMessages)) ++
          "."
     else summary m)%string /\
  (forall msg,
     In msg (filter isTaskAction oldMessages) <->
     In msg oldMessages /\
     exists kw, In kw ["created"; "scheduled"; "deleted"; "updated"]%string /\
                occurs_in kw (content msg)) /\
  (existsb isTaskAction oldMessages = true <->
   exists msg kw,
     In msg oldMessages /\
     In kw ["created"; "scheduled"; "deleted"; "updated"]%string /\
     occurs_in kw (content msg)).
Proof.
  unfold outcome, exec. rewrite updateSummary_run. cbn [fst snd].
  split; [reflexivity|].
  split; [destruct (existsb _ _); reflexivity|].
  split; [destruct (existsb _ _); reflexivity|].
  split; [destruct (existsb _ _); reflexivity|].
  split.
  - intros msg. rewrite filter_In, isTaskAction_keywords. reflexivity.
  - apply existsb_isTaskAction.
Qed.


(** C7: [summary] only grows until [clear]: after [addMessage], and after
    [updateSummary] on any batch, the old summary is a prefix of the new
    one, and so it is after a whole session; [getContextString] and
    [getHistory] leave it as it is; [clear] resets the summary to the empty
    string and the messages to the empty array. *)
Theorem summary_append_only (m : ConversationMemory) :
  (forall r c now,
     String.prefix (summary m) (summary (exec (addMessage r c now) m)) = true) /\
  (forall oldMessages,
     String.prefix (summary m) (summary (exec (updateSummary oldMessages) m))
       = true) /\
  (forall cs, String.prefix (summary m) (summary (session cs m)) = true) /\
  summary (exec getContextString m) = summary m /\
  summary (exec getHistory m) = summary m /\
  exec clear m = mkMemory [] (maxMessages m) "".
Proof.
  assert (Hupd : forall old m0,
             String.prefix (summary m0) (summary (exec (updateSummary old) m0))
               = true).
  { intros old m0. unfold exec. rewrite updateSummary_run. cbn [snd].
    apply prefix_append. destruct (existsb _ _); cbn [summary set_summary].
    - eexists; reflexivity.
    - exists ""%string. now rewrite append_nil_r. }
  assert (Hadd : forall r c now m0,
             String.prefix (summary m0) (summary (exec (addMessage r c now) m0))
               = true).
  { intros r c now m0. unfold exec. rewrite addMessage_run. cbv zeta.
    destruct (_ >? _).
    - apply (Hupd _ (set_messages _ m0)).
    - cbn. apply prefix_append. exists ""%string. now rewrite append_nil_r. }
  split; [intros; apply Hadd|]. split; [intros; apply Hupd|].
  split; [|repeat split].
  intros cs. induction cs as [|c cs IH] using rev_ind.
  - apply prefix_append. exists ""%string. cbn. now rewrite append_nil_r.
  - rewrite session_snoc. apply prefix_append.
    apply prefix_append in IH. destruct IH as [s1 H1].
    specialize (Hadd (call_role c) (call_content c) (call_now c) (session cs m)).
    apply prefix_append in Hadd. destruct Hadd as [s2 H2].
    exists (s1 ++ s2)%string. unfold addCall.
    now rewrite H2, H1, append_assoc.
Qed.

(** ** Rendering and inspection *)


(** C8: on a state with no message and an empty summary
    [getContextString] returns the empty string, and [clear] followed by
    [getContextString] returns the empty string from every state. *)
Theorem getContextString_empty (max : Z) (m : ConversationMemory) :
  outcome getContextString (mkMemory [] max "") = Normal ""%string /\
  outcome getContextString (new_ConversationMemory (Some max))
    = Normal ""%string /\
  outcome (bind clear (fun _ => getContextString)) m = Normal ""%string /\
  outcome getContextString (exec clear m) = Normal ""%string.
Proof. repeat split. Qed.

(** C9: [getContextString] and [getHistory] write no field: the state after
    either call is the state before it; and [getHistory] returns the current
    messages, the current summary, and as [totalMessages] the number of
    messages the array holds now. *)
Theorem inspection_read_only (m : ConversationMemory) :
  exec getContextString m = m /\
  exec getHistory m = m /\
  outcome getHistory m =
    Normal {| hist_messages := messages m;
              hist_summary := summary m;
              totalMessages := Z.of_nat (List.length (messages m)) |}.
Proof. repeat split. Qed.

(** ** Roles *)

(** C6, as the code has it: [addMessage] checks no role.  For every role
    string, also one that is neither ["user"] nor ["assistant"], the call
    completes normally, and on a memory with a positive [maxMessages] the
    message is retained as the newest one with the role stored as given. *)
Theorem addMessage_any_role (r c now : string) (m : ConversationMemory) :
  0 < maxMessages m ->
  outcome (addMessage r c now) m = Normal tt /\
  exists older,
    messages (exec (addMessage r c now) m) = older ++ [mkMessage r c now].
Proof.
  intros Hmax. split; [apply addMessage_normal|].
  rewrite addMessage_messages.
  set (k := Z.to_nat _).
  assert (Hk : (k <= List.length (messages m))%nat) by (subst k; lia).
  exists (skipn k (messages m)).
  rewrite skipn_app.
  replace (k - List.length (messages m))%nat with 0%nat by lia.
  reflexivity.
Qed.

(** C6 as stated fails: ["system"] is neither ["user"] nor ["assistant"],
    and a call with it throws nothing: it completes normally and the message
    is accepted into the array, the role kept as it came. *)
Lemma addMessage_invalid_role_accepted :
  "system"%string <> "user"%string /\
  "system"%string <> "assistant"%string /\
  addMessage "system" "hello" "2026-01-01T00:00:00.000Z"
    (new_ConversationMemory None)
  = (Normal tt,
     mkMemory [mkMessage "system" "hello" "2026-01-01T00:00:00.000Z"] 20 "") /\
  ~ (exists e,
       outcome (addMessage "system" "hello" "2026-01-01T00:00:00.000Z")
         (new_ConversationMemory None) = Throw e).
Proof.
  split; [discriminate|]. split; [discriminate|]. split; [reflexivity|].
  intros [e He]. discriminate.
Qed.

(** ** Instances *)

Lemma addMessage_bounded_witness :
  Z.of_nat (List.length (messages
    (session
       (firstn 3 [mkCall "user" "a" "1"; mkCall "assistant" "b" "2";
                  mkCall "user" "c" "3"; mkCall "assistant" "d" "4"])
       (new_ConversationMemory (Some 2))))) <= 2 /\
  exists h,
    outcome getHistory
      (session
         (firstn 3 [mkCall "user" "a" "1"; mkCall "assistant" "b" "2";
                    mkCall "user" "c" "3"; mkCall "assistant" "d" "4"])
         (new_ConversationMemory (Some 2))) = Normal h /\
    totalMessages h <= 2.
Proof.
  apply (addMessage_bounded 2
           [mkCall "user" "a" "1"; mkCall "assistant" "b" "2";
            mkCall "user" "c" "3"; mkCall "assistant" "d" "4"] 3).
  reflexivity.
Defined.

Lemma addMessage_keeps_most_recent_witness :
  messages
    (session [mkCall "user" "a" "1"; mkCall "assistant" "b" "2";
              mkCall "user" "c" "3"]
       (new_ConversationMemory (Some 2)))
  = lastn 2
      (map message_of
         [mkCall "user" "a" "1"; mkCall "assistant" "b" "2";
          mkCall "user" "c" "3"]) /\
  addMessage "user" "c" "3"
    (mkMemory [mkMessage "user" "a" "1"; mkMessage "assistant" "b" "2"] 2 "")
  = updateSummary [mkMessage "user" "a" "1"]
      (mkMemory [mkMessage "assistant" "b" "2"; mkMessage "user" "c" "3"] 2 "").
Proof.
  destruct (addMessage_keeps_most_recent 2 eq_refl) as [Hsession Hstep].
  split.
  - exact (Hsession [mkCall "user" "a" "1"; mkCall "assistant" "b" "2";
                     mkCall "user" "c" "3"]).
  - destruct (Hstep
                (mkMemory [mkMessage "user" "a" "1";
                           mkMessage "assistant" "b" "2"] 2 "")
                "user" "c" "3" eq_refl)%string as [_ H].
    exact (proj2 (proj2 H)).
Defined.

Lemma addMessage_any_role_witness :
  outcome (addMessage "system" "hello" "2026-01-01T00:00:00.000Z")
    (new_ConversationMemory None) = Normal tt /\
  exists older,
    messages (exec (addMessage "system" "hello" "2026-01-01T00:00:00.000Z")
                (new_ConversationMemory None))
    = older ++ [mkMessage "system" "hello" "2026-01-01T00:00:00.000Z"].
Proof.
  apply (addMessage_any_role "system" "hello" "2026-01-01T00:00:00.000Z"
           (new_ConversationMemory None)).
  reflexivity.
Defined.

(** ** What leaves the window *)

Section Eviction.

Lemma digest_app (l1 l2 : list message) :
  digest (l1 ++ l2) = (digest l1 ++ digest l2)%string.
Proof.
  unfold digest. rewrite filter_app.
  induction (filter isTaskAction l1) as [|msg l IH]; [reflexivity|].
  cbn [app fold_right]. now rewrite IH, append_assoc.
Qed.

(** A batch of at most one message gives the segment of that message. *)
Lemma digest_batch (batch : list message) :
  (List.length batch <= 1)%nat ->
  (if existsb isTaskAction batch
   then summarySegment (map content (filter isTaskAction batch))
   else ""%string) = digest batch.
Proof.
  destruct batch as [|e [|e' batch]]; cbn [List.length]; try lia.
  - reflexivity.
  - intros _. unfold digest. cbn [existsb filter].
    destruct (isTaskAction e); cbn [orb map fold_right].
    + now rewrite append_nil_r.
    + reflexivity.
Qed.

(** The summary after [addMessage]: the old one and what [updateSummary]
    adds for the front of the pushed array. *)
Lemma addMessage_summary (r c now : string) (m : ConversationMemory) :
  summary (exec (addMessage r c now) m) =
  (summary m ++
   (if existsb isTaskAction
         (firstn (Z.to_nat (Z.of_nat (List.length (messages m)) + 1
                            - maxMessages m))
            (messages m ++ [mkMessage r c now]))
    then summarySegment
           (map content
              (filter isTaskAction
                 (firstn (Z.to_nat (Z.of_nat (List.length (messages m)) + 1
                                    - maxMessages m))
                    (messages m ++ [mkMessage r c now]))))
    else ""))%string.
Proof.
  unfold exec. rewrite addMessage_run. cbv zeta.
  rewrite length_app. cbn [List.length].
  replace (Z.of_nat (List.length (messages m) + 1))
    with (Z.of_nat (List.length (messages m)) + 1) by lia.
  destruct (_ >? _) eqn:Hgt.
  - rewrite updateSummary_run. cbn [snd].
    destruct (existsb _ _); cbn [summary set_summary set_messages].
    + reflexivity.
    + now rewrite append_nil_r.
  - rewrite Z.gtb_ltb in Hgt. apply Z.ltb_ge in Hgt.
    replace (Z.to_nat _) with 0%nat by lia.
    cbn. now rewrite append_nil_r.
Qed.

(** From a new memory: the messages are the last of the recorded ones. *)
Lemma session_new_messages (max : Z) (cs : list call) :
  messages (session cs (new_ConversationMemory (Some max))) =
  lastn (Z.to_nat max) (map message_of cs).
Proof.
  destruct cs as [|c cs]; [reflexivity|].
  now rewrite session_lastn by discriminate.
Qed.

(** From a new memory: the summary is the digest of the recorded messages
    that are no longer in the window. *)
Lemma session_new_summary (max : Z) (cs : list call) :
  summary (session cs (new_ConversationMemory (Some max))) =
  digest (firstn (List.length cs - Z.to_nat max) (map message_of cs)).
Proof.
  induction cs as [|c cs IH] using rev_ind; [reflexivity|].
  rewrite session_snoc. unfold addCall.
  rewrite addMessage_summary, IH, session_maxMessages, session_new_messages.
  cbn [maxMessages new_ConversationMemory].
  change (mkMessage (call_role c) (call_content c) (call_now c))
    with (message_of c).
  set (all := map message_of cs). set (x := message_of c).
  set (N := Z.to_nat max).
  assert (Hlen : List.length all = List.length cs)
    by (subst all; apply length_map).
  rewrite map_app, length_app. cbn [map List.length]. fold all x.
  rewrite length_lastn, <- Hlen.
  set (len := List.length all).
  set (batch := firstn _ (lastn N all ++ [x])).
  assert (Hbatch : batch =
            firstn (len + 1 - N - (len - N)) (skipn (len - N) all ++ [x])).
  { subst batch. unfold lastn. fold len.
    destruct (Z_lt_le_dec max 0) as [Hneg|Hpos].
    - replace N with 0%nat by (subst N; lia).
      rewrite Nat.sub_0_r. subst len. rewrite skipn_all. cbn [app].
      rewrite !firstn_all2; [reflexivity| |]; cbn [List.length]; lia.
    - f_equal. subst N. lia. }
  rewrite Hbatch.
  assert (Hsplit : firstn (len + 1 - N) (all ++ [x]) =
            firstn (len - N) all ++
            firstn (len + 1 - N - (len - N)) (skipn (len - N) all ++ [x])).
  { set (j := (len + 1 - N - (len - N))%nat).
    rewrite <- (firstn_skipn (len - N) all) at 1.
    rewrite <- app_assoc.
    replace (len + 1 - N)%nat
      with (List.length (firstn (len - N) all) + j)%nat
      by (rewrite length_firstn; fold len; lia).
    apply firstn_app_2. }
  rewrite Hsplit, digest_app. f_equal.
  apply digest_batch. rewrite length_firstn. lia.
Qed.

Lemma length_digest_repeat (msg : message) (n : nat) :
  isTaskAction msg = true ->
  String.length (digest (repeat msg n)) =
  (n * String.length (summarySegment [content msg]))%nat.
Proof.
  intros Hmsg. induction n as [|n IH]; [reflexivity|].
  change (repeat msg (S n)) with ([msg] ++ repeat msg n).
  rewrite digest_app, length_append, IH.
  unfold digest at 1. cbn [filter]. rewrite Hmsg. cbn [fold_right].
  rewrite append_nil_r. lia.
Qed.

End Eviction.

(** X1: after any sequence of [addMessage] calls on a new memory, whatever
    the limit, the recorded messages split into those that left the window
    and those still in it, in order; the window holds the second part, and
    the summary is one segment ([Previous session: content.] on a line of
    its own) for each message of the first part that contains a keyword, in
    the order they left.  The other evicted messages leave no trace. *)
Theorem session_accounts_for_every_message (max : Z) (cs : list call) :
  map message_of cs =
    firstn (List.length cs - Z.to_nat max) (map message_of cs) ++
    messages (session cs (new_ConversationMemory (Some max))) /\
  summary (session cs (new_ConversationMemory (Some max))) =
    fold_right
      (fun msg acc =>
         (JS.nl ++ "Previous session: " ++ content msg ++ "." ++ acc)%string)
      ""%string
      (filter isTaskAction
         (firstn (List.length cs - Z.to_nat max) (map message_of cs))).
Proof.
  split.
  - rewrite session_new_messages. unfold lastn. rewrite length_map.
    symmetry. apply firstn_skipn.
  - rewrite session_new_summary. unfold digest.
    induction (filter isTaskAction _) as [|msg l IH]; [reflexivity|].
    cbn [fold_right]. rewrite IH. unfold summarySegment, JS.join.
    cbn [String.concat]. cbn [append JS.nl]. f_equal.
    now rewrite !append_assoc.
Qed.

(** X2: [totalMessages] is the number of calls made so far until the limit
    is reached, and the limit from then on: after [n] calls on a new memory
    with a limit [max >= 0] it is the smaller of [n] and [max]. *)
Theorem totalMessages_is_min (max : Z) (cs : list call) :
  0 <= max ->
  outcome getHistory (session cs (new_ConversationMemory (Some max))) =
  Normal
    {| hist_messages := lastn (Z.to_nat max) (map message_of cs);
       hist_summary := summary (session cs (new_ConversationMemory (Some max)));
       totalMessages := Z.min (Z.of_nat (List.length cs)) max |}.
Proof.
  intros Hmax. unfold outcome, getHistory, bind, gets, ret. cbn [fst].
  rewrite session_new_messages, length_lastn, length_map.
  do 2 f_equal. lia.
Qed.

(** X3: with a limit of zero or less the window keeps nothing: every
    [addMessage] empties the array and hands all of it, the new message
    included, to [updateSummary]. *)
Theorem addMessage_nonpositive_limit
  (r c now : string) (m : ConversationMemory) :
  maxMessages m <= 0 ->
  addMessage r c now m =
    updateSummary (messages m ++ [mkMessage r c now]) (set_messages [] m) /\
  messages (exec (addMessage r c now) m) = [].
Proof.
  intros Hmax. split.
  - rewrite addMessage_run. cbv zeta.
    assert (Hlen : Z.of_nat (List.length (messages m ++ [mkMessage r c now]))
                   >= 1) by (rewrite length_app; cbn [List.length]; lia).
    replace (_ >? _) with true
      by (symmetry; rewrite Z.gtb_ltb; apply Z.ltb_lt; lia).
    rewrite firstn_all2, skipn_all2 by lia. reflexivity.
  - rewrite addMessage_messages. apply skipn_all2.
    rewrite length_app. cbn [List.length]. lia.
Qed.

(** X4: the summary has no bound: for every limit and every length there is
    a sequence of calls after which the summary is at least that long. *)
Theorem summary_unbounded (max : Z) (bound : nat) :
  exists cs : list call,
    (bound <=
     String.length (summary (session cs (new_ConversationMemory (Some max)))))%nat.
Proof.
  exists (repeat (mkCall "assistant" "created" "") (bound + Z.to_nat max)).
  rewrite session_new_summary, repeat_length, map_repeat.
  replace (bound + Z.to_nat max - Z.to_nat max)%nat with bound by lia.
  rewrite repeat_app, firstn_app, repeat_length, Nat.sub_diag.
  rewrite firstn_all2 by (rewrite repeat_length; lia).
  cbn [firstn]. rewrite app_nil_r.
  rewrite length_digest_repeat by reflexivity.
  cbn. lia.
Qed.

(** ** The reply of the language model *)

Section Braces.

Lemma prefix_nil (s : string) : String.prefix "" s = true.
Proof. destruct s; reflexivity. Qed.

Lemma includes_char (c a : ascii) (s : string) :
  JS.includes (String a s) (String c "") =
  Ascii.eqb c a || JS.includes s (String c "").
Proof.
  cbn [JS.includes String.prefix].
  destruct (ascii_dec c a) as [->|Hne].
  - now rewrite prefix_nil, Ascii.eqb_refl.
  - apply Ascii.eqb_neq in Hne. now rewrite Hne.
Qed.

Lemma includes_false (kw s : string) :
  JS.includes s kw = false <-> ~ occurs_in kw s.
Proof.
  rewrite <- includes_occurs. destruct (JS.includes s kw); split; congruence.
Qed.

Lemma occurs_in_middle (kw a b : string) : occurs_in kw (a ++ kw ++ b).
Proof. now exists a, b. Qed.

Lemma upToLastBrace_None (s : string) :
  Text.upToLastBrace s = None <-> JS.includes s "}" = false.
Proof.
  induction s as [|c s IH]; [split; reflexivity|].
  cbn [Text.upToLastBrace]. rewrite includes_char, (Ascii.eqb_sym "}" c).
  destruct (Text.upToLastBrace s) as [t|].
  - assert (H : JS.includes s "}" = true).
    { destruct (JS.includes s "}"); [reflexivity|].
      now specialize (proj2 IH eq_refl). }
    rewrite H, orb_true_r. split; discriminate.
  - rewrite (proj1 IH eq_refl), orb_false_r.
    destruct (Ascii.eqb c "}"); split; congruence.
Qed.

Lemma upToLastBrace_Some (s t : string) :
  Text.upToLastBrace s = Some t <->
  exists mid post,
    s = (mid ++ "}" ++ post)%string /\ t = (mid ++ "}")%string /\
    JS.includes post "}" = false.
Proof.
  split.
  - revert t. induction s as [|c s IH]; intros t; [discriminate|].
    cbn [Text.upToLastBrace].
    destruct (Text.upToLastBrace s) as [t'|] eqn:Hs.
    + intros [= <-]. destruct (IH t' eq_refl) as [mid [post [-> [-> Hpost]]]].
      now exists (String c mid), post.
    + destruct (Ascii.eqb c "}") eqn:Hc; [|discriminate].
      apply Ascii.eqb_eq in Hc. subst c. intros [= <-].
      exists ""%string, s. repeat split. now apply upToLastBrace_None.
  - intros [mid [post [-> [-> Hpost]]]].
    induction mid as [|a mid IH].
    + cbn. now rewrite (proj2 (upToLastBrace_None post) Hpost).
    + cbn [append Text.upToLastBrace] in IH |- *. now rewrite IH.
Qed.

Lemma jsonMatch_Some (s j : string) :
  Text.jsonMatch s = Some j <->
  exists pre mid post,
    s = (pre ++ "{" ++ mid ++ "}" ++ post)%string /\
    j = ("{" ++ mid ++ "}")%string /\
    JS.includes pre "{" = false /\ JS.includes post "}" = false.
Proof.
  split.
  - revert j. induction s as [|c s IH]; intros j; [discriminate|].
    cbn [Text.jsonMatch]. destruct (Ascii.eqb c "{") eqn:Hc.
    + apply Ascii.eqb_eq in Hc. subst c.
      destruct (Text.upToLastBrace s) as [t|] eqn:Hs.
      * intros [= <-]. apply upToLastBrace_Some in Hs.
        destruct Hs as [mid [post [-> [-> Hpost]]]].
        now exists ""%string, mid, post.
      * intros Hj. destruct (IH j Hj) as [pre [mid [post [Heq _]]]].
        apply upToLastBrace_None, includes_false in Hs. exfalso. apply Hs.
        rewrite Heq. exists (pre ++ "{" ++ mid)%string, post.
        now rewrite !append_assoc.
    + intros Hj. destruct (IH j Hj) as [pre [mid [post [-> [-> [Hpre Hpost]]]]]].
      exists (String c pre), mid, post. repeat split; [|exact Hpost].
      now rewrite includes_char, (Ascii.eqb_sym "{" c), Hc, Hpre.
  - intros [pre [mid [post [-> [-> [Hpre Hpost]]]]]].
    induction pre as [|a pre IH].
    + cbn [append Text.jsonMatch]. rewrite Ascii.eqb_refl.
      replace (Text.upToLastBrace (mid ++ String "}" post))
        with (Some (mid ++ "}")%string); [reflexivity|].
      symmetry. apply upToLastBrace_Some. now exists mid, post.
    + rewrite includes_char in Hpre. apply orb_false_iff in Hpre.
      destruct Hpre as [Ha Hpre].
      cbn [append Text.jsonMatch]. rewrite (Ascii.eqb_sym a "{"), Ha.
      apply IH, Hpre.
Qed.

Lemma jsonMatch_braces (pre mid post : string) :
  Text.jsonMatch (pre ++ "{" ++ mid ++ "}" ++ post) <> None.
Proof.
  induction pre as [|a pre IH].
  - cbn [append Text.jsonMatch]. rewrite Ascii.eqb_refl.
    destruct (Text.upToLastBrace _) as [t|] eqn:Hs; [discriminate|].
    apply upToLastBrace_None, includes_false in Hs. exfalso. apply Hs.
    apply (occurs_in_middle "}" mid post).
  - cbn [append Text.jsonMatch]. destruct (Ascii.eqb a "{"); [|exact IH].
    destruct (Text.upToLastBrace _) as [t|] eqn:Hs; [discriminate|].
    apply upToLastBrace_None, includes_false in Hs. exfalso. apply Hs.
    exists (pre ++ "{" ++ mid)%string, post. now rewrite !append_assoc.
Qed.

End Braces.

(** X5: the fallback of [processWithOllama] for a reply that is not JSON
    takes the text from the first opening brace of the reply to its last
    closing brace, both included, whatever lies between (not the first
    balanced object); it finds nothing exactly when no opening brace of the
    reply has a closing brace after it. *)
Theorem jsonMatch_first_to_last (s : string) :
  (forall j,
     Text.jsonMatch s = Some j <->
     exists pre mid post,
       s = (pre ++ "{" ++ mid ++ "}" ++ post)%string /\
       j = ("{" ++ mid ++ "}")%string /\
       ~ occurs_in "{" pre /\ ~ occurs_in "}" post) /\
  (Text.jsonMatch s = None <->
   ~ exists pre mid post, s = (pre ++ "{" ++ mid ++ "}" ++ post)%string).
Proof.
  split.
  - intros j. rewrite jsonMatch_Some.
    split; intros [pre [mid [post [Hs [Hj [Hpre Hpost]]]]]];
      exists pre, mid, post; repeat split; try assumption;
      now apply includes_false.
  - split.
    + intros Hnone [pre [mid [post ->]]].
      now apply (jsonMatch_braces pre mid post).
    + intros Hno. destruct (Text.jsonMatch s) as [j|] eqn:Hj; [|reflexivity].
      exfalso. apply Hno. apply jsonMatch_Some in Hj.
      destruct Hj as [pre [mid [post [Hs _]]]]. now exists pre, mid, post.
Qed.

(** X6: the confirmation is given exactly by an answer that begins with [y]
    or [Y]; every other answer, the empty one and one with a space before
    the [y] included, declines. *)
Theorem askForConfirmation_yes (answer : string) :
  askForConfirmation answer = true <->
  exists rest, answer = String "y" rest \/ answer = String "Y" rest.
Proof.
  unfold askForConfirmation, Text.startsWith.
  destruct answer as [|a answer]; cbn [Text.toLowerCase String.prefix].
  - split; [discriminate | intros [rest [H|H]]; discriminate].
  - rewrite prefix_nil.
    destruct (ascii_dec "y" (Text.lowerChar a)) as [Hy|Hy].
    + split; [intros _ | reflexivity]. exists answer.
      destruct a as [[] [] [] [] [] [] [] []]; vm_compute in Hy;
        try discriminate; tauto.
    + split; [discriminate|]. intros [rest [[= -> _]|[= -> _]]];
        exfalso; apply Hy; reflexivity.
Qed.

(** ** The turns of the chat *)

Section Turns.

Variable post : string -> string -> completion string.
Variable JSON_parse : string -> completion llmResult.
Variable executeMCPTool : string -> string -> completion toolResult.
Variable toLocaleDateString : string -> string.
Variable toLocaleTimeString : string -> string.

Lemma addMessage_pair (r c now : string) (m : ConversationMemory) :
  addMessage r c now m = (Normal tt, exec (addMessage r c now) m).
Proof.
  pose proof (addMessage_normal r c now m) as H. unfold outcome, exec in *.
  destruct (addMessage r c now m) as [o m']. cbn in *. now subst o.
Qed.

Lemma addMessage_newest (r c now : string) (m : ConversationMemory) :
  0 < maxMessages m ->
  exists older,
    messages (exec (addMessage r c now) m) = older ++ [mkMessage r c now].
Proof.
  intros Hmax. rewrite addMessage_messages.
  set (k := Z.to_nat _).
  assert (Hk : (k <= List.length (messages m))%nat) by (subst k; lia).
  exists (skipn k (messages m)). rewrite skipn_app.
  replace (k - List.length (messages m))%nat with 0%nat by lia.
  reflexivity.
Qed.

Lemma concat_nil_cons (x : string) (l : list string) :
  String.concat "" (x :: l) = (x ++ String.concat "" l)%string.
Proof.
  destruct l as [|y l]; cbn [String.concat]; [now rewrite append_nil_r|].
  reflexivity.
Qed.

Lemma concat_nil_app (l1 l2 : list string) :
  String.concat "" (l1 ++ l2) =
  (String.concat "" l1 ++ String.concat "" l2)%string.
Proof.
  induction l1 as [|x l1 IH]; [reflexivity|].
  change ((x :: l1) ++ l2) with (x :: (l1 ++ l2)).
  now rewrite !concat_nil_cons, IH, append_assoc.
Qed.

(** [getContextString] with a last message: the context ends with the line
    of that message. *)
Lemma getContextString_last (m : ConversationMemory)
  (older : list message) (msg : message) :
  messages m = older ++ [msg] ->
  exists before,
    getContextString m = (Normal (before ++ turnLine msg)%string, m).
Proof.
  intros Hmsgs.
  unfold getContextString, bind, gets, ret. rewrite Hmsgs.
  replace (Z.of_nat (List.length (older ++ [msg])) >? 0) with true
    by (symmetry; rewrite Z.gtb_ltb; apply Z.ltb_lt;
        rewrite length_app; cbn [List.length]; lia).
  rewrite fold_appendLine, map_app, concat_nil_app. cbn [map String.concat].
  eexists. rewrite <- append_assoc. reflexivity.
Qed.

Lemma getContextString_state (m : ConversationMemory) :
  exists ctx, getContextString m = (Normal ctx, m).
Proof. unfold getContextString, bind, gets, ret. eexists. reflexivity. Qed.

(** [processWithOllama] leaves the memory as [addMessage] left it, also
    when it throws. *)
Lemma processWithOllama_exec (userMessage now : string)
  (m : ConversationMemory) :
  processWithOllama post JSON_parse userMessage now m =
  (outcome (processWithOllama post JSON_parse userMessage now) m,
   exec (addMessage "user" userMessage now) m).
Proof.
  unfold outcome, processWithOllama, bind, lift.
  rewrite addMessage_pair.
  destruct (getContextString_state (exec (addMessage "user" userMessage now) m))
    as [ctx ->].
  reflexivity.
Qed.


(** The turn of a line that is no command, after [processWithOllama]. *)
Lemma chatLoop_run (input answer nowUser nowAssistant : string)
  (m : ConversationMemory) :
  ~ In (Text.toLowerCase input) commands ->
  chatLoop post JSON_parse executeMCPTool toLocaleDateString
    toLocaleTimeString input answer nowUser nowAssistant m =
  let m1 := exec (addMessage "user" input nowUser) m in
  match outcome (processWithOllama post JSON_parse input nowUser) m with
  | Throw e => recordError e nowAssistant false [] m1
  | Normal llm =>
      if String.eqb (action llm) "ask_clarification" then
        match missing_info llm with
        | Some (info :: infos) =>
            (Normal (mkTurn Continue false []),
             exec (addMessage "assistant"
                     ("Asked for clarification: "
                        ++ JS.join ", " (info :: infos)) nowAssistant) m1)
        | _ => (Normal (mkTurn Continue false []), m1)
        end
      else if Text.truthyOpt (validation_summary llm)
              && negb (askForConfirmation answer) then
        (Normal (mkTurn Continue true []),
         exec (addMessage "assistant" "Action was cancelled by user"
                 nowAssistant) m1)
      else
        match executeMCPTool (action llm) (parameters llm) with
        | Throw e =>
            recordError e nowAssistant
              (Text.truthyOpt (validation_summary llm))
              [(action llm, parameters llm)] m1
        | Normal result =>
            (Normal (mkTurn Continue
                       (Text.truthyOpt (validation_summary llm))
                       [(action llm, parameters llm)]),
             exec (addMessage "assistant"
                     (assistantResponse toLocaleDateString toLocaleTimeString
                        llm result) nowAssistant) m1)
        end
  end.
Proof.
  intros Hcmd. unfold chatLoop.
  assert (Hne : forall w, In w commands ->
            String.eqb (Text.toLowerCase input) w = false).
  { intros w Hw. apply String.eqb_neq. intros Heq. apply Hcmd.
    now rewrite Heq. }
  rewrite !Hne by (cbn; tauto). cbn [orb].
  rewrite processWithOllama_exec. cbv zeta.
  destruct (outcome _ m) as [llm|e]; [|reflexivity].
  destruct (String.eqb (action llm) "ask_clarification").
  - destruct (missing_info llm) as [[|info infos]|]; try reflexivity.
    unfold bind. now rewrite addMessage_pair.
  - destruct (_ && _).
    + unfold bind. now rewrite addMessage_pair.
    + destruct (executeMCPTool _ _) as [result|e]; [|reflexivity].
      unfold bind. now rewrite addMessage_pair.
Qed.

Lemma recordError_run (e now : string) (didAsk : bool)
  (calls : list (string * string)) (m : ConversationMemory) :
  recordError e now didAsk calls m =
  (Normal (mkTurn Continue didAsk calls),
   exec (addMessage "assistant" ("Error occurred: " ++ e) now) m).
Proof. unfold recordError, bind. now rewrite addMessage_pair. Qed.

End Turns.

Section ChatProperties.

Variable post : string -> string -> completion string.
Variable JSON_parse : string -> completion llmResult.
Variable executeMCPTool : string -> string -> completion toolResult.
Variable toLocaleDateString : string -> string.
Variable toLocaleTimeString : string -> string.

(** X7: on a memory with a positive limit, [processWithOllama] records the
    user's message before it asks the model, so the conversation context
    sent to the model ends with the line [user: ] of that very message; and
    the message stays recorded whatever the request and the parsing give,
    an error included. *)
Theorem processWithOllama_context
  (userMessage now : string) (m : ConversationMemory) :
  0 < maxMessages m ->
  exists before,
    processWithOllama post JSON_parse userMessage now m =
    (match post (before ++ "user: " ++ userMessage ++ JS.nl)%string
             userMessage with
     | Normal llmResponse => parseResponse JSON_parse llmResponse
     | Throw e => Throw e
     end,
     exec (addMessage "user" userMessage now) m).
Proof.
  intros Hmax.
  destruct (addMessage_newest "user" userMessage now m Hmax) as [older Hm].
  destruct (getContextString_last _ older _ Hm) as [before Hctx].
  exists before.
  unfold processWithOllama, bind, lift.
  rewrite addMessage_pair, Hctx. reflexivity.
Qed.

(** X8: the lines [exit], [quit], [memory], [history] and [clear memory], in
    any letter case, are handled by [chatLoop] itself: the model and the
    tools are not called and no message is recorded.  The first two close
    the terminal, the others go on; [clear memory] empties the messages and
    the summary and keeps the limit, the other four leave the memory as it
    is. *)
Theorem chatLoop_commands
  (input answer nowUser nowAssistant : string) (m : ConversationMemory) :
  In (Text.toLowerCase input) commands ->
  chatLoop post JSON_parse executeMCPTool toLocaleDateString
    toLocaleTimeString input answer nowUser nowAssistant m =
  (Normal
     {| next :=
          if String.eqb (Text.toLowerCase input) "exit"
             || String.eqb (Text.toLowerCase input) "quit"
          then Closed else Continue;
        asked := false;
        toolCalls := [] |},
   if String.eqb (Text.toLowerCase input) "clear memory"
   then mkMemory [] (maxMessages m) ""
   else m).
Proof.
  unfold commands, chatLoop. cbn [In].
  intros [<-|[<-|[<-|[<-|[<-|[]]]]]]; reflexivity.
Qed.


(** X10: a line that is no command never ends the loop and never escapes
    as an error: the turn completes and goes on.  The user's message is
    recorded first.  When the model asks for a clarification without naming
    any missing information (no [missing_info], or an empty one) nothing
    more is recorded: the memory is the one the user's message left.  When
    it asks for a clarification and names missing information, the one
    message recorded after the user's is ["Asked for clarification: "] and
    the items joined by [", "].  In every other case exactly one assistant
    message is recorded after the user's. *)
Theorem chatLoop_records
  (input answer nowUser nowAssistant : string) (m : ConversationMemory) :
  ~ In (Text.toLowerCase input) commands ->
  exists t,
    outcome (chatLoop post JSON_parse executeMCPTool toLocaleDateString
               toLocaleTimeString input answer nowUser nowAssistant) m
      = Normal t /\
    next t = Continue /\
    (forall llm,
       outcome (processWithOllama post JSON_parse input nowUser) m
         = Normal llm ->
       action llm = "ask_clarification"%string ->
       missing_info llm = None \/ missing_info llm = Some [] ->
       exec (chatLoop post JSON_parse executeMCPTool toLocaleDateString
               toLocaleTimeString input answer nowUser nowAssistant) m =
       exec (addMessage "user" input nowUser) m) /\
    (forall llm info infos,
       outcome (processWithOllama post JSON_parse input nowUser) m
         = Normal llm ->
       action llm = "ask_clarification"%string ->
       missing_info llm = Some (info :: infos) ->
       exec (chatLoop post JSON_parse executeMCPTool toLocaleDateString
               toLocaleTimeString input answer nowUser nowAssistant) m =
       exec (addMessage "assistant"
               ("Asked for clarification: "
                  ++ String.concat ", " (info :: infos)) nowAssistant)
         (exec (addMessage "user" input nowUser) m)) /\
    ((forall llm,
        outcome (processWithOllama post JSON_parse input nowUser) m
          = Normal llm ->
        action llm <> "ask_clarification"%string) ->
     exists text,
       exec (chatLoop post JSON_parse executeMCPTool toLocaleDateString
               toLocaleTimeString input answer nowUser nowAssistant) m =
       exec (addMessage "assistant" text nowAssistant)
         (exec (addMessage "user" input nowUser) m)) /\
    ((exists llm,
        outcome (processWithOllama post JSON_parse input nowUser) m
          = Normal llm /\
        action llm = "ask_clarification"%string /\
        (missing_info llm = None \/ missing_info llm = Some []) /\
        exec (chatLoop post JSON_parse executeMCPTool toLocaleDateString
                toLocaleTimeString input answer nowUser nowAssistant) m =
        exec (addMessage "user" input nowUser) m) \/
     (exists text,
        exec (chatLoop post JSON_parse executeMCPTool toLocaleDateString
                toLocaleTimeString input answer nowUser nowAssistant) m =
        exec (addMessage "assistant" text nowAssistant)
          (exec (addMessage "user" input nowUser) m))).
Proof.
  intros Hcmd.
  remember (chatLoop post JSON_parse executeMCPTool toLocaleDateString
              toLocaleTimeString input answer nowUser nowAssistant m)
    as run eqn:Hrun.
  unfold outcome at 1, exec at 1 3 6 9 11.
  rewrite <- Hrun.
  rewrite chatLoop_run in Hrun by exact Hcmd. cbv zeta in Hrun.
  destruct (outcome (processWithOllama post JSON_parse input nowUser) m)
    as [llm|e] eqn:Hllm.
  - destruct (String.eqb (action llm) "ask_clarification") eqn:Hact.
    + apply String.eqb_eq in Hact.
      destruct (missing_info llm) as [[|info infos]|] eqn:Hinfo;
        subst run; eexists; (split; [reflexivity|]); (split; [reflexivity|]);
        cbn [snd].
      * split; [reflexivity|].
        split; [intros l i rest [= <-]; rewrite Hinfo; discriminate|].
        split; [intros Hnot; now destruct (Hnot llm eq_refl)|].
        left. exists llm. auto.
      * split; [intros l [= <-] _ [H|H]; rewrite Hinfo in H; discriminate|].
        split; [intros l i rest [= <-] _; rewrite Hinfo; intros [= <- <-];
                reflexivity|].
        split; [intros _|right]; eexists; reflexivity.
      * split; [reflexivity|].
        split; [intros l i rest [= <-]; rewrite Hinfo; discriminate|].
        split; [intros Hnot; now destruct (Hnot llm eq_refl)|].
        left. exists llm. auto.
    + apply String.eqb_neq in Hact.
      assert (Hfinal : exists text,
                snd run =
                exec (addMessage "assistant" text nowAssistant)
                  (exec (addMessage "user" input nowUser) m)).
      { subst run. destruct (_ && _); [eexists; reflexivity|].
        destruct (executeMCPTool _ _) as [result|e];
          rewrite ?recordError_run; eexists; reflexivity. }
      assert (Hturn : exists t, fst run = Normal t /\ next t = Continue).
      { subst run. destruct (_ && _); [eexists; split; reflexivity|].
        destruct (executeMCPTool _ _) as [result|e];
          rewrite ?recordError_run; eexists; split; reflexivity. }
      destruct Hturn as [t [Ht Hnext]]. exists t.
      split; [exact Ht|]. split; [exact Hnext|].
      split; [intros l [= <-]; congruence|].
      split; [intros l i rest [= <-]; congruence|].
      split; [intros _; exact Hfinal | right; exact Hfinal].
  - subst run. rewrite recordError_run. eexists.
    split; [reflexivity|]. split; [reflexivity|]. cbn [snd].
    split; [discriminate|]. split; [discriminate|].
    split; [intros _|right]; eexists; reflexivity.
Qed.

(** X11: when the request to the model or the parsing of its reply fails
    with the message [e], the turn calls no tool and records, after the
    user's message, the assistant message ["Error occurred: "] followed by
    [e]; when the tool call fails with [e] the same message is recorded.
    A reply that is not JSON and has no brace pair fails with
    ["Could not parse LLM response as JSON"]. *)
Theorem chatLoop_error_recorded
  (input answer nowUser nowAssistant : string) (m : ConversationMemory)
  (e : string) :
  ~ In (Text.toLowerCase input) commands ->
  (outcome (processWithOllama post JSON_parse input nowUser) m = Throw e ->
   chatLoop post JSON_parse executeMCPTool toLocaleDateString
     toLocaleTimeString input answer nowUser nowAssistant m =
   (Normal (mkTurn Continue false []),
    exec (addMessage "assistant" ("Error occurred: " ++ e) nowAssistant)
      (exec (addMessage "user" input nowUser) m))) /\
  (forall llm,
     outcome (processWithOllama post JSON_parse input nowUser) m = Normal llm ->
     action llm <> "ask_clarification"%string ->
     Text.truthyOpt (validation_summary llm)
       && negb (askForConfirmation answer) = false ->
     executeMCPTool (action llm) (parameters llm) = Throw e ->
     exec (chatLoop post JSON_parse executeMCPTool toLocaleDateString
             toLocaleTimeString input answer nowUser nowAssistant) m =
     exec (addMessage "assistant" ("Error occurred: " ++ e) nowAssistant)
       (exec (addMessage "user" input nowUser) m)) /\
  (forall llmResponse e',
     JSON_parse llmResponse = Throw e' ->
     (~ exists pre mid rest,
          llmResponse = (pre ++ "{" ++ mid ++ "}" ++ rest)%string) ->
     parseResponse JSON_parse llmResponse =
     Throw "Could not parse LLM response as JSON").
Proof.
  intros Hcmd. split; [|split].
  - intros Hllm. rewrite chatLoop_run by exact Hcmd. cbv zeta.
    rewrite Hllm. apply recordError_run.
  - intros llm Hllm Hact Hgate Htool. unfold exec at 1.
    rewrite chatLoop_run by exact Hcmd. cbv zeta.
    apply String.eqb_neq in Hact.
    rewrite Hllm, Hact, Hgate, Htool, recordError_run. reflexivity.
  - intros llmResponse e' Hparse Hno. unfold parseResponse.
    rewrite Hparse.
    destruct (Text.jsonMatch llmResponse) as [j|] eqn:Hj; [|reflexivity].
    exfalso. apply Hno. apply jsonMatch_Some in Hj.
    destruct Hj as [pre [mid [rest [Hs _]]]]. now exists pre, mid, rest.
Qed.

End ChatProperties.

(** ** What the summary keeps of the tools' work *)

Section Keywords.

Lemma occurs_in_app_l (kw a b : string) :
  occurs_in kw b -> occurs_in kw (a ++ b).
Proof.
  intros [pre [rest ->]]. exists (a ++ pre)%string, rest.
  now rewrite append_assoc.
Qed.

Lemma occurs_in_app_r (kw a b : string) :
  occurs_in kw a -> occurs_in kw (a ++ b).
Proof.
  intros [pre [rest ->]]. exists pre, (rest ++ b)%string.
  now rewrite !append_assoc.
Qed.

(** A non-empty [kw] without the character [q] is no prefix of a text that
    meets [q] before [kw] ends. *)
Lemma prefix_across (kw a b : string) (q : ascii) :
  JS.includes kw (String q "") = false ->
  String.prefix kw (a ++ String q b) = String.prefix kw a.
Proof.
  revert a. induction kw as [|k kw IH]; intros a Hq.
  - now rewrite !prefix_nil.
  - rewrite includes_char in Hq. apply orb_false_iff in Hq.
    destruct Hq as [Hk Hq].
    destruct a as [|x a]; cbn [append String.prefix].
    + destruct (ascii_dec k q) as [->|_]; [|reflexivity].
      now rewrite Ascii.eqb_refl in Hk.
    + destruct (ascii_dec k x); [now apply IH | reflexivity].
Qed.

(** A keyword without [q] occurs in a text cut at [q] only inside one of
    the two parts. *)
Lemma includes_across (kw a b : string) (q : ascii) :
  kw <> ""%string ->
  JS.includes kw (String q "") = false ->
  JS.includes (a ++ String q b) kw = JS.includes a kw || JS.includes b kw.
Proof.
  intros Hkw Hq. induction a as [|x a IH].
  - pose proof (prefix_across kw "" b q Hq) as Hp. cbn [append] in Hp.
    cbn [append JS.includes]. rewrite Hp.
    destruct kw as [|k kw]; [congruence|]. reflexivity.
  - cbn [append JS.includes]. rewrite IH.
    change (String x (a ++ String q b)) with (String x a ++ String q b)%string.
    rewrite prefix_across by exact Hq. now rewrite orb_assoc.
Qed.

(** Between two quotes: the filter sees a keyword in [a "t" b] exactly when
    it sees one in [a], in [t] or in [b]. *)
Lemma isTaskAction_quoted (r a t b now r' now' : string) :
  isTaskAction (mkMessage r (a ++ Text.dq ++ t ++ Text.dq ++ b) now) =
  isTaskAction (mkMessage r' a now')
  || isTaskAction (mkMessage r' t now')
  || isTaskAction (mkMessage r' b now').
Proof.
  unfold isTaskAction, Text.dq. cbn [content append].
  rewrite !includes_across by (reflexivity || discriminate).
  repeat match goal with
         | |- context [JS.includes ?s ?k] =>
             let x := fresh "i" in
             generalize (JS.includes s k); intro x
         end.
  repeat match goal with x : bool |- _ => destruct x end; reflexivity.
Qed.

End Keywords.

(** X12: what the tool server answers to a successful [create_task],
    [update_task] or [delete_task] makes [chatLoop] record an assistant
    message that the summary keeps: whatever the explanation of the model
    and the title of the task, the recorded text passes the filter of
    [updateSummary], and when that message is evicted its whole text is
    appended to the summary. *)
Theorem server_replies_are_summarised
  (toLocaleDateString toLocaleTimeString : string -> string)
  (llm : llmResult) (title now : string) (data : task)
  (reply : toolResult) (m : ConversationMemory) :
  createTask title (Normal data) = Normal reply \/
  updateTask (Normal data) = Normal reply \/
  deleteTask (Normal tt) = Normal reply ->
  isTaskAction
    (mkMessage "assistant"
       (assistantResponse toLocaleDateString toLocaleTimeString llm reply)
       now) = true /\
  summary
    (exec (updateSummary
             [mkMessage "assistant"
                (assistantResponse toLocaleDateString toLocaleTimeString
                   llm reply) now]) m) =
  (summary m ++ JS.nl ++ "Previous session: "
     ++ assistantResponse toLocaleDateString toLocaleTimeString llm reply
     ++ ".")%string.
Proof.
  intros Hreply.
  assert (Hfilter : isTaskAction
            (mkMessage "assistant"
               (assistantResponse toLocaleDateString toLocaleTimeString
                  llm reply) now) = true).
  { apply isTaskAction_keywords. cbn [content].
    destruct Hreply as [H|[H|H]]; injection H as <-;
      unfold assistantResponse;
      cbn [res_success res_tasks res_message res_task res_error];
      rewrite andb_false_r; cbn [Text.truthyOpt Text.orElse JS.truthy append].
    - exists "created"%string. split; [cbn; tauto|].
      apply occurs_in_app_l.
      apply (occurs_in_app_l _ ". Task ").
      apply (occurs_in_app_l _ Text.dq).
      apply occurs_in_app_l.
      apply includes_occurs. reflexivity.
    - exists "updated"%string. split; [cbn; tauto|].
      apply occurs_in_app_l. apply includes_occurs. reflexivity.
    - exists "deleted"%string. split; [cbn; tauto|].
      apply occurs_in_app_l. apply includes_occurs. reflexivity. }
  split; [exact Hfilter|].
  unfold exec. rewrite updateSummary_run. cbn [snd existsb filter].
  rewrite Hfilter. reflexivity.
Qed.

(** X13: the demonstration, when its three tool calls succeed, ends with
    the five last of its eight messages in the window and [totalMessages]
    at 5.  Of the three evicted messages only ["Created task: ..."] could
    feed the summary, and it does so exactly when the title returned by the
    server contains one of the keywords: the capital [C] of ["Created"]
    does not match.  When the first tool call fails the demonstration stops
    with that error after one recorded message. *)
Theorem demoMemory_result (now : nat -> string)
  (t1 t3 : task) (ts : list task) (e : string)
  (result2 : completion (list task)) (result3 : completion task) :
  outcome (demoMemory now (Normal t1) (Normal ts) (Normal t3))
    (new_ConversationMemory (Some 5)) =
  Normal
    {| hist_messages :=
         [mkMessage "assistant"
            ("Found " ++ Text.numberToString (List.length ts)
               ++ " tasks including the team meeting") (now 3%nat);
          mkMessage "user" "Change that meeting to 4pm instead" (now 4%nat);
          mkMessage "assistant" "Updated the team meeting time to 4pm"
            (now 5%nat);
          mkMessage "user" "Also schedule a doctor appointment for Friday"
            (now 6%nat);
          mkMessage "assistant"
            ("Created task: " ++ Text.dq ++ task_title t3 ++ Text.dq
               ++ " for Friday") (now 7%nat)];
       hist_summary :=
         if existsb (JS.includes (task_title t1)) actionKeywords
         then (JS.nl ++ "Previous session: Created task: " ++ Text.dq
                 ++ task_title t1 ++ Text.dq ++ " for tomorrow at 3pm.")%string
         else ""%string;
       totalMessages := 5 |} /\
  demoMemory now (Throw e) result2 result3 (new_ConversationMemory (Some 5)) =
  (Throw e,
   mkMemory
     [mkMessage "user" "Schedule a team meeting tomorrow at 3pm" (now 0%nat)]
     5 "").
Proof.
  split; [|reflexivity].
  set (calls :=
    [mkCall "user" "Schedule a team meeting tomorrow at 3pm" (now 0%nat);
     mkCall "assistant"
       ("Created task: " ++ Text.dq ++ task_title t1 ++ Text.dq
          ++ " for tomorrow at 3pm") (now 1%nat);
     mkCall "user" "Show me my tasks" (now 2%nat);
     mkCall "assistant"
       ("Found " ++ Text.numberToString (List.length ts)
          ++ " tasks including the team meeting") (now 3%nat);
     mkCall "user" "Change that meeting to 4pm instead" (now 4%nat);
     mkCall "assistant" "Updated the team meeting time to 4pm" (now 5%nat);
     mkCall "user" "Also schedule a doctor appointment for Friday"
       (now 6%nat);
     mkCall "assistant"
       ("Created task: " ++ Text.dq ++ task_title t3 ++ Text.dq
          ++ " for Friday") (now 7%nat)]).
  assert (Hrun :
    demoMemory now (Normal t1) (Normal ts) (Normal t3)
      (new_ConversationMemory (Some 5)) =
    getHistory (session calls (new_ConversationMemory (Some 5)))).
  { unfold demoMemory, bind, lift. rewrite !addMessage_pair.
    match goal with
    | |- context [getContextString ?st] =>
        destruct (getContextString_state st) as [ctx ->]
    end.
    reflexivity. }
  unfold outcome. rewrite Hrun.
  unfold getHistory, bind, gets, ret. cbn [fst].
  rewrite session_new_messages, session_new_summary.
  f_equal. f_equal.
  unfold digest. change (Z.to_nat 5) with 5%nat. subst calls.
  cbn [List.length Nat.sub map firstn]. unfold message_of.
  cbn [call_role call_content call_now filter].
  rewrite (isTaskAction_quoted "assistant" "Created task: " (task_title t1)
             " for tomorrow at 3pm" (now 1%nat) "" "").
  replace (isTaskAction
             (mkMessage "user" "Schedule a team meeting tomorrow at 3pm"
                (now 0%nat))) with false by reflexivity.
  replace (isTaskAction (mkMessage "user" "Show me my tasks" (now 2%nat)))
    with false by reflexivity.
  replace (isTaskAction (mkMessage "" "Created task: " ""))
    with false by reflexivity.
  replace (isTaskAction (mkMessage "" " for tomorrow at 3pm" ""))
    with false by reflexivity.
  cbn [orb]. rewrite orb_false_r.
  replace (isTaskAction (mkMessage "" (task_title t1) ""))
    with (existsb (JS.includes (task_title t1)) actionKeywords)
    by (unfold isTaskAction, actionKeywords; cbn [existsb content];
        now rewrite orb_false_r, !orb_assoc).
  destruct (existsb _ _); [|reflexivity].
  cbn [fold_right content]. unfold summarySegment, JS.join.
  cbn [String.concat]. rewrite append_nil_r.
  cbn [append JS.nl]. do 19 f_equal.
  now rewrite !append_assoc.
Qed.

(** ** What the model is told *)

Section Context.

Lemma getContextString_outcome (m : ConversationMemory) :
  outcome getContextString m =
  Normal
    ((match summary m with
      | EmptyString => ""
      | String _ _ =>
          "Summary of earlier conversation: " ++ summary m ++ JS.nl ++ JS.nl
      end) ++
     (match messages m with
      | [] => ""
      | _ :: _ =>
          "Recent conversation:" ++ JS.nl ++
          String.concat "" (map turnLine (messages m))
      end))%string.
Proof.
  unfold outcome, getContextString, bind, gets, ret. cbn [fst]. f_equal.
  destruct (messages m) as [|msg msgs] eqn:Hmsgs.
  - cbn [List.length Z.of_nat Z.gtb Z.compare].
    destruct (summary m); cbn [JS.truthy]; now rewrite ?append_nil_r.
  - replace (Z.of_nat (List.length (msg :: msgs)) >? 0) with true
      by (symmetry; rewrite Z.gtb_ltb; apply Z.ltb_lt; cbn [List.length]; lia).
    rewrite fold_appendLine.
    destruct (summary m) as [|a s]; cbn [JS.truthy]; [reflexivity|].
    cbn [append]. now rewrite !append_assoc.
Qed.

Lemma occurs_in_concat (kw x : string) (l : list string) :
  In x l -> occurs_in kw x -> occurs_in kw (String.concat "" l).
Proof.
  intros Hin Hocc. induction l as [|y l IH]; [contradiction|].
  rewrite concat_nil_cons. destruct Hin as [->|Hin].
  - now apply occurs_in_app_r.
  - now apply occurs_in_app_l, IH.
Qed.

Lemma occurs_in_turnLine (msg : message) :
  occurs_in (content msg) (turnLine msg).
Proof.
  exists (role msg ++ ": ")%string, JS.nl. unfold turnLine.
  now rewrite append_assoc.
Qed.

Lemma occurs_in_digest (msg : message) (evicted : list message) :
  In msg evicted -> isTaskAction msg = true ->
  occurs_in (content msg) (digest evicted).
Proof.
  intros Hin Hact. unfold digest.
  assert (Hf : In msg (filter isTaskAction evicted))
    by (apply filter_In; auto).
  induction (filter isTaskAction evicted) as [|y l IH]; [contradiction|].
  cbn [fold_right]. destruct Hf as [->|Hf].
  - apply occurs_in_app_r. exists (JS.nl ++ "Previous session: ")%string, "."%string.
    unfold summarySegment, JS.join. cbn [String.concat].
    now rewrite append_assoc.
  - now apply occurs_in_app_l, IH.
Qed.

End Context.

(** X14: no message about a task action drops out of what the model is
    told: after any sequence of calls on a new memory, whatever the limit,
    the text of every recorded message that contains a keyword is part of
    the string [getContextString] returns, in the recent conversation
    while the message is in the window and in the summary after it left. *)
Theorem action_messages_stay_in_context
  (max : Z) (cs : list call) (c : call) :
  In c cs ->
  isTaskAction (message_of c) = true ->
  exists ctx,
    outcome getContextString (session cs (new_ConversationMemory (Some max)))
      = Normal ctx /\
    occurs_in (call_content c) ctx.
Proof.
  intros Hin Hact. eexists. split; [apply getContextString_outcome|].
  set (st := session cs (new_ConversationMemory (Some max))).
  assert (Hall : In (message_of c)
            (firstn (List.length cs - Z.to_nat max) (map message_of cs)
             ++ messages st)).
  { subst st. rewrite session_new_messages. unfold lastn.
    rewrite length_map, firstn_skipn. now apply in_map. }
  apply in_app_or in Hall. destruct Hall as [Hev|Hwin].
  - apply occurs_in_app_r.
    pose proof (occurs_in_digest _ _ Hev Hact) as Hocc.
    unfold st at 1 2. rewrite session_new_summary.
    revert Hocc. generalize (digest
      (firstn (List.length cs - Z.to_nat max) (map message_of cs))).
    intros [|a s] Hocc.
    + destruct Hocc as [pre [rest Heq]]. exfalso.
      destruct pre; cbn [append] in Heq; [|discriminate].
      destruct (content (message_of c)) eqn:Hc;
        cbn [append] in Heq; [|discriminate].
      unfold isTaskAction in Hact. rewrite Hc in Hact. discriminate.
    + apply (occurs_in_app_l _ "Summary of earlier conversation: ").
      now apply occurs_in_app_r.
  - apply occurs_in_app_l.
    destruct (messages st) as [|msg msgs] eqn:Hmsgs; [contradiction|].
    apply (occurs_in_app_l _ "Recent conversation:").
    apply occurs_in_app_l.
    apply (occurs_in_concat _ (turnLine (message_of c))).
    + now apply in_map.
    + apply (occurs_in_turnLine (message_of c)).
Qed.

(** ** The prompts of the command line *)

Section Prompts.

Lemma bounded_forallb (P : nat -> bool) (n : nat) :
  forallb P (seq 0 n) = true -> forall k, (k < n)%nat -> P k = true.
Proof.
  intros H k Hk. rewrite forallb_forall in H. apply H, in_seq. lia.
Qed.



Lemma split_plain (a : string) :
  JS.includes a "," = false -> Text.split "," a = [a].
Proof.
  induction a as [|x a IH]; [reflexivity|].
  rewrite includes_char. intros H. apply orb_false_iff in H.
  destruct H as [Hx Ha]. cbn [Text.split].
  rewrite (Ascii.eqb_sym x ","), Hx, (IH Ha). reflexivity.
Qed.

Lemma split_at_comma (a rest : string) :
  JS.includes a "," = false ->
  Text.split "," (a ++ String "," rest) = a :: Text.split "," rest.
Proof.
  induction a as [|x a IH]; [reflexivity|].
  rewrite includes_char. intros H. apply orb_false_iff in H.
  destruct H as [Hx Ha]. cbn [append Text.split].
  rewrite (Ascii.eqb_sym x ","), Hx, (IH Ha). reflexivity.
Qed.

(** An allowed tag, after nothing or one space: no comma in it, and [trim]
    gives the tag. *)
Lemma allowed_piece (pad t : string) :
  In pad [""; " "]%string -> In t allowedTags ->
  JS.includes (pad ++ t) "," = false /\ Text.trim (pad ++ t) = t.
Proof.
  unfold allowedTags. cbn [In].
  intros [<-|[<-|[]]] [<-|[<-|[<-|[<-|[<-|[]]]]]]; split; reflexivity.
Qed.

Lemma tags_read_back (pad pad0 : string) (l : list string) :
  In pad [""; " "]%string -> In pad0 [""; " "]%string ->
  l <> [] -> Forall (fun t => In t allowedTags) l ->
  map Text.trim (Text.split "," (pad0 ++ JS.join (String "," pad) l)) = l.
Proof.
  intros Hpad Hpad0 Hne Hall. revert pad0 Hpad0.
  induction l as [|t l IH]; [congruence|]. intros pad0 Hpad0.
  inversion Hall as [|t' l' Ht Hl]; subst.
  destruct (allowed_piece pad0 t Hpad0 Ht) as [Hcomma Htrim].
  destruct l as [|t2 l].
  - unfold JS.join. cbn [String.concat].
    rewrite split_plain by exact Hcomma. cbn [map]. now rewrite Htrim.
  - unfold JS.join in *. cbn [String.concat].
    rewrite <- append_assoc. cbn [append].
    rewrite split_at_comma by exact Hcomma. cbn [map].
    rewrite Htrim. f_equal. apply IH; [discriminate | exact Hl | exact Hpad].
Qed.

End Prompts.

(** ** What [trim] removes *)

Section Trimming.

Lemma list_ascii_app (a b : string) :
  list_ascii_of_string (a ++ b) =
  list_ascii_of_string a ++ list_ascii_of_string b.
Proof.
  induction a as [|x a IH]; [reflexivity|].
  cbn [append list_ascii_of_string]. now rewrite IH.
Qed.

Lemma string_of_list_app (l1 l2 : list ascii) :
  string_of_list_ascii (l1 ++ l2) =
  (string_of_list_ascii l1 ++ string_of_list_ascii l2)%string.
Proof.
  induction l1 as [|x l1 IH]; [reflexivity|].
  cbn [app string_of_list_ascii append]. now rewrite IH.
Qed.

Lemma reverse_app (a b : string) :
  Text.reverse (a ++ b) = (Text.reverse b ++ Text.reverse a)%string.
Proof.
  unfold Text.reverse.
  now rewrite list_ascii_app, rev_app_distr, string_of_list_app.
Qed.

Lemma reverse_involutive (s : string) : Text.reverse (Text.reverse s) = s.
Proof.
  unfold Text.reverse.
  now rewrite list_ascii_of_string_of_list_ascii, rev_involutive,
    string_of_list_ascii_of_string.
Qed.







(** A text that neither starts nor ends with white space is its own
    [trim]. *)
Lemma trim_fixed (s : string) :
  Text.dropOne Text.whiteSpace s = None ->
  Text.dropOne (map Text.reverse Text.whiteSpace) (Text.reverse s) = None ->
  Text.trim s = s.
Proof.
  intros Hstart Hend. unfold Text.trim.
  assert (Hs : Text.trimStart s = s).
  { unfold Text.trimStart. destruct (String.length s); [reflexivity|].
    cbn [Text.dropAll]. now rewrite Hstart. }
  rewrite Hs. unfold Text.trimEnd.
  destruct (String.length s); cbn [Text.dropAll]; rewrite ?Hend;
    apply reverse_involutive.
Qed.

Lemma dropAll_spaces (n fuel : nat) :
  (n <= fuel)%nat -> Text.dropAll fuel Text.whiteSpace (spaces n) = ""%string.
Proof.
  revert fuel. induction n as [|n IH]; intros fuel Hle.
  - destruct fuel; reflexivity.
  - destruct fuel as [|fuel]; [lia|].
    cbn [Text.dropAll]. unfold spaces in *.
    cbn [repeat string_of_list_ascii].
    change (Text.dropOne Text.whiteSpace
              (String " " (string_of_list_ascii (repeat " "%char n))))
      with (Some (string_of_list_ascii (repeat " "%char n))).
    apply IH. lia.
Qed.

Lemma length_spaces (n : nat) : String.length (spaces n) = n.
Proof.
  unfold spaces. induction n as [|n IH]; [reflexivity|].
  cbn [repeat string_of_list_ascii String.length]. now rewrite IH.
Qed.

(** An answer of spaces only comes out of the prompt empty. *)
Lemma askForMissingInfo_spaces (n : nat) :
  askForMissingInfo (spaces n) = ""%string.
Proof.
  unfold askForMissingInfo, Text.trim, Text.trimStart.
  rewrite length_spaces, dropAll_spaces by lia. reflexivity.
Qed.

(** A list of allowed tags, joined: it ends with its last tag. *)
Lemma join_ends_with_tag (sep : string) (l : list string) :
  l <> [] -> Forall (fun t => In t allowedTags) l ->
  exists pre t, In t allowedTags /\ JS.join sep l = (pre ++ t)%string.
Proof.
  intros Hne Hall. induction l as [|t l IH]; [congruence|].
  inversion Hall as [|? ? Ht Hl]; subst.
  destruct l as [|t2 l].
  - exists ""%string, t. now split.
  - destruct (IH ltac:(discriminate) Hl) as [pre [t' [Ht' Hjoin]]].
    exists (t ++ sep ++ pre)%string, t'. split; [exact Ht'|].
    unfold JS.join in *. cbn [String.concat] in *.
    now rewrite Hjoin, !append_assoc.
Qed.

Lemma join_trimmed (pad : string) (l : list string) :
  In pad [""; " "]%string ->
  l <> [] -> Forall (fun t => In t allowedTags) l ->
  Text.trim (JS.join (String "," pad) l) = JS.join (String "," pad) l.
Proof.
  intros Hpad Hne Hall. apply trim_fixed.
  - destruct l as [|t l]; [congruence|].
    inversion Hall as [|? ? Ht _]; subst.
    unfold allowedTags in Ht. cbn [In] in Ht. unfold JS.join.
    destruct Ht as [<-|[<-|[<-|[<-|[<-|[]]]]]]; destruct l; reflexivity.
  - destruct (join_ends_with_tag (String "," pad) l Hne Hall)
      as [pre [t [Ht ->]]].
    rewrite reverse_app. unfold allowedTags in Ht. cbn [In] in Ht.
    destruct Ht as [<-|[<-|[<-|[<-|[<-|[]]]]]]; reflexivity.
Qed.

End Trimming.


(** X16: a time of day written with 24 hours as [H:MM] or [HH:MM] is read
    as that hour and minute, for every hour below 24 and minute below 60. *)
Theorem processTime_24_hours (h m : nat) :
  (h < 24)%nat -> (m < 60)%nat ->
  processTime (Text.numberToString h ++ ":" ++ twoDigits m)
    = Some (Z.of_nat h, Z.of_nat m) /\
  processTime (twoDigits h ++ ":" ++ twoDigits m)
    = Some (Z.of_nat h, Z.of_nat m).
Proof.
  intros Hh Hm.
  set (ok := fun (hours : nat -> string) (h m : nat) =>
    match processTime (hours h ++ ":" ++ twoDigits m) with
    | Some (x, y) => (x =? Z.of_nat h) && (y =? Z.of_nat m)
    | None => false
    end).
  assert (H : forall hours,
            forallb (fun h => forallb (ok hours h) (seq 0 60)) (seq 0 24) = true ->
            processTime (hours h ++ ":" ++ twoDigits m)
              = Some (Z.of_nat h, Z.of_nat m)).
  { intros hours Hall.
    pose proof (bounded_forallb _ _ (bounded_forallb _ _ Hall h Hh) m Hm) as Hok.
    unfold ok in Hok.
    destruct (processTime _) as [[x y]|]; [|discriminate].
    apply andb_true_iff in Hok. destruct Hok as [Hx Hy].
    apply Z.eqb_eq in Hx, Hy. now subst. }
  split; apply H; vm_compute; reflexivity.
Qed.

(** X17: a time of day written with 12 hours, as [H:MM] or just [H],
    followed by [am] or [pm] in lower or upper case with or without a space
    before it, is read as the hour of the 24-hour clock: 12am is 0, 12pm is
    12, and the other hours of the afternoon get 12 added. *)
Theorem processTime_12_hours (h m : nat) (space ampm : string) :
  (1 <= h <= 12)%nat -> (m < 60)%nat ->
  In space [""; " "]%string ->
  In ampm ["am"; "AM"; "pm"; "PM"]%string ->
  processTime (Text.numberToString h ++ ":" ++ twoDigits m ++ space ++ ampm)
    = Some (Z.of_nat (h mod 12)
            + (if String.eqb (Text.toLowerCase ampm) "pm" then 12 else 0),
            Z.of_nat m) /\
  processTime (Text.numberToString h ++ space ++ ampm)
    = Some (Z.of_nat (h mod 12)
            + (if String.eqb (Text.toLowerCase ampm) "pm" then 12 else 0),
            0).
Proof.
  intros Hh Hm Hspace Hampm.
  set (ok := fun (h m : nat) =>
    match processTime (Text.numberToString h ++ ":" ++ twoDigits m
                         ++ space ++ ampm),
          processTime (Text.numberToString h ++ space ++ ampm) with
    | Some (x, y), Some (x', y') =>
        (x =? Z.of_nat (h mod 12)
               + (if String.eqb (Text.toLowerCase ampm) "pm" then 12 else 0))
        && (y =? Z.of_nat m)
        && (x' =? Z.of_nat (h mod 12)
               + (if String.eqb (Text.toLowerCase ampm) "pm" then 12 else 0))
        && (y' =? 0)
    | _, _ => false
    end).
  assert (Hall : forallb (fun h => (h =? 0)%nat || forallb (ok h) (seq 0 60))
                   (seq 0 13) = true).
  { cbn [In] in Hspace, Hampm.
    destruct Hspace as [<-|[<-|[]]];
      destruct Hampm as [<-|[<-|[<-|[<-|[]]]]]; vm_compute; reflexivity. }
  assert (Hh' : (h < 13)%nat) by lia.
  pose proof (bounded_forallb _ _ Hall h Hh') as Hrow. cbv beta in Hrow.
  replace (h =? 0)%nat with false in Hrow
    by (symmetry; apply Nat.eqb_neq; lia).
  pose proof (bounded_forallb _ _ Hrow m Hm) as Hok. unfold ok in Hok.
  destruct (processTime (_ ++ ":" ++ _)) as [[x y]|]; [|discriminate].
  destruct (processTime _) as [[x' y']|]; [|discriminate].
  repeat (apply andb_true_iff in Hok; destruct Hok as [Hok ?]).
  repeat match goal with H : (_ =? _) = true |- _ => apply Z.eqb_eq in H end.
  subst. split; reflexivity.
Qed.

(** X18: the tags prompt gives only tags of the allowed five; an answer of
    spaces only, the empty one included, and every answer
    [askForMissingInfo] trims to the empty text, gives [other]; a list of
    allowed tags separated by commas, with or without a space after each
    comma, is read back as that list; and an answer that is not trimmed to
    the empty text and names no allowed tag gives no tag at all, not
    [other]. *)
Theorem processTags_allowed (answer : string) :
  (forall t, In t (processTags (askForMissingInfo answer)) ->
             In t allowedTags) /\
  (forall n, processTags (askForMissingInfo (spaces n)) = ["other"%string]) /\
  (askForMissingInfo answer = ""%string ->
   processTags (askForMissingInfo answer) = ["other"%string]) /\
  (forall (l : list string) (pad : string),
     l <> [] -> Forall (fun t => In t allowedTags) l ->
     In pad [""; " "]%string ->
     processTags (askForMissingInfo (String.concat (String "," pad) l)) = l) /\
  (askForMissingInfo answer <> ""%string ->
   (forall piece, In piece (Text.split "," (askForMissingInfo answer)) ->
                  ~ In (Text.trim piece) allowedTags) ->
   processTags (askForMissingInfo answer) = []).
Proof.
  assert (Hmem : forall t,
            existsb (String.eqb t) allowedTags = true <-> In t allowedTags).
  { intros t. rewrite existsb_exists. split.
    - intros [x [Hx Heq]]. apply String.eqb_eq in Heq. now subst.
    - intros Ht. exists t. split; [exact Ht | apply String.eqb_refl]. }
  split; [|split; [|split; [|split]]].
  - intros t. unfold processTags.
    destruct (JS.truthy (askForMissingInfo answer)).
    + rewrite filter_In. intros [_ H]. now apply Hmem.
    + cbn. intros [<-|[]]. tauto.
  - intros n. now rewrite askForMissingInfo_spaces.
  - now intros ->.
  - intros l pad Hne Hall Hpad.
    change (String.concat (String "," pad) l) with (JS.join (String "," pad) l).
    unfold askForMissingInfo. rewrite join_trimmed by assumption.
    unfold processTags.
    replace (JS.truthy (JS.join (String "," pad) l)) with true.
    + pose proof (tags_read_back pad "" l Hpad (or_introl eq_refl) Hne Hall)
        as Hback.
      cbn [append] in Hback. rewrite Hback.
      apply forallb_filter_id. apply forallb_forall. intros t Ht.
      apply Hmem. rewrite Forall_forall in Hall. now apply Hall.
    + destruct l as [|t l]; [congruence|]. inversion Hall as [|? ? Ht _]; subst.
      unfold JS.join. symmetry.
      unfold allowedTags in Ht. cbn [In] in Ht.
      destruct Ht as [<-|[<-|[<-|[<-|[<-|[]]]]]];
        destruct l; reflexivity.
  - intros Hne Hnone. unfold processTags.
    destruct (askForMissingInfo answer) as [|a s]; [congruence|].
    cbn [JS.truthy].
    induction (Text.split "," (String a s)) as [|piece pieces IH];
      [reflexivity|].
    cbn [map filter].
    destruct (existsb _ allowedTags) eqn:Hp.
    + exfalso. apply (Hnone piece); [now left | now apply Hmem].
    + apply IH. intros p Hp'. apply Hnone. now right.
Qed.

(** ** The queries of the tool server *)

Lemma filter_twice {A : Type} (f g : A -> bool) (l : list A) :
  filter g (filter f l) = filter (fun x => f x && g x) l.
Proof.
  induction l as [|x l IH]; [reflexivity|].
  cbn [filter]. destruct (f x); cbn [filter andb]; [|exact IH].
  destruct (g x); now rewrite IH.
Qed.

Lemma filter_all {A : Type} (l : list A) : filter (fun _ => true) l = l.
Proof. apply forallb_filter_id, forallb_forall. reflexivity. Qed.

(** [listTasks] on an answer of the task API: one filter with both
    conditions. *)
Lemma listTasks_run (toDateString : string -> string)
  (date : option string) (tags : option (list string)) (data : list task) :
  exists kept,
    kept =
      filter
        (fun t =>
           (match date with
            | Some (String a d) =>
                String.eqb (toDateString (task_start t))
                  (toDateString (String a d))
            | _ => true
            end)
           && (match tags with
               | Some (tag :: others) =>
                   existsb (fun x => existsb (String.eqb x) (tag :: others))
                     (task_tags t)
               | _ => true
               end)) data /\
    listTasks toDateString date tags (Normal data) =
    Normal {| reply_count := Z.of_nat (List.length kept);
              reply_tasks := kept |}.
Proof.
  eexists. split; [reflexivity|]. unfold listTasks.
  destruct date as [[|a d]|]; destruct tags as [[|tag others]|];
    cbn [JS.truthy]; rewrite ?filter_twice;
    match goal with
    | |- Normal {| reply_count := _ (_ ?X); reply_tasks := _ |} =
         Normal {| reply_count := _ (_ ?Y); reply_tasks := _ |} =>
        assert (HX : X = Y);
        [|exact (f_equal
                   (fun k => Normal {| reply_count := Z.of_nat (List.length k);
                                       reply_tasks := k |}) HX)]
    end;
    first [ reflexivity
          | symmetry; apply filter_all
          | apply filter_ext; intros t; now rewrite andb_true_r ].
Qed.

(** X19: [listTasks] answers with tasks of the task API only, in the
    order it gave them, and [count] is their number.  A missing or empty
    [date] and a missing or empty [tags] array filter nothing; a date keeps
    the tasks that start on the same day, and a non-empty [tags] array
    keeps the tasks that have at least one of the tags.  When the task API
    fails with [e] the query fails with ["Failed to list tasks: "] and
    [e]. *)
Theorem listTasks_filters (toDateString : string -> string)
  (date : option string) (tags : option (list string))
  (data : list task) (e : string) :
  (exists r,
     listTasks toDateString date tags (Normal data) = Normal r /\
     reply_count r = Z.of_nat (List.length (reply_tasks r)) /\
     (exists keep, reply_tasks r = filter keep data) /\
     (forall t, In t (reply_tasks r) <->
        In t data /\
        (forall d, date = Some d -> d <> ""%string ->
           toDateString (task_start t) = toDateString d) /\
        (forall ts, tags = Some ts -> ts <> [] ->
           exists x, In x (task_tags t) /\ In x ts)) /\
     ((date = None \/ date = Some ""%string) ->
      (tags = None \/ tags = Some []) ->
      reply_tasks r = data)) /\
  listTasks toDateString date tags (Throw e) =
    Throw ("Failed to list tasks: " ++ e).
Proof.
  split; [|reflexivity].
  destruct (listTasks_run toDateString date tags data) as [kept [Hkept ->]].
  eexists. split; [reflexivity|]. cbn [reply_count reply_tasks].
  split; [reflexivity|]. split; [eexists; exact Hkept|]. split.
  - intros t. rewrite Hkept, filter_In, andb_true_iff. split.
    + intros [Hin [Hdate Htags]]. split; [exact Hin|]. split.
      * intros d -> Hd. destruct d as [|a d]; [congruence|].
        now apply String.eqb_eq.
      * intros ts -> Hts. destruct ts as [|tag others]; [congruence|].
        apply existsb_exists in Htags. destruct Htags as [x [Hx Hmem]].
        apply existsb_exists in Hmem. destruct Hmem as [y [Hy Heq]].
        apply String.eqb_eq in Heq. subst y. now exists x.
    + intros [Hin [Hdate Htags]]. split; [exact Hin|]. split.
      * destruct date as [[|a d]|]; try reflexivity.
        apply String.eqb_eq. now apply Hdate.
      * destruct tags as [[|tag others]|]; try reflexivity.
        destruct (Htags _ eq_refl) as [x [Hx Hmem]]; [discriminate|].
        apply existsb_exists. exists x. split; [exact Hx|].
        apply existsb_exists. exists x. split; [exact Hmem|].
        apply String.eqb_refl.
  - intros [-> | ->] [-> | ->]; rewrite Hkept; cbn [andb]; apply filter_all.
Qed.

(** X20: [searchTasks] answers with tasks of the task API only, in the
    order it gave them, without their colour, and [count] is their number.
    A task is kept when the query in lower case is part of its title in
    lower case, or of its description when it has one.  So the empty query
    (for a [toLowerCase] that maps the empty text to itself) gives every
    task.  When the task API fails with [e] the query fails with
    ["Failed to search tasks: "] and [e]. *)
Theorem searchTasks_results (toLowerCase : string -> string)
  (query : string) (data : list task) (e : string) :
  toLowerCase ""%string = ""%string ->
  (exists r,
     searchTasks toLowerCase query (Normal data) = Normal r /\
     reply_count r = Z.of_nat (List.length (reply_tasks r)) /\
     (forall t', In t' (reply_tasks r) ->
        exists t,
          In t data /\ t' = withoutColor t /\
          (occurs_in (toLowerCase query) (toLowerCase (task_title t)) \/
           exists d, task_description t = Some d /\
                     occurs_in (toLowerCase query) (toLowerCase d)))) /\
  (exists r,
     searchTasks toLowerCase "" (Normal data) = Normal r /\
     reply_tasks r = map withoutColor data) /\
  searchTasks toLowerCase query (Throw e) =
    Throw ("Failed to search tasks: " ++ e).
Proof.
  intros Hempty. split; [|split; [|reflexivity]].
  - eexists. split; [reflexivity|]. cbn [reply_count reply_tasks].
    split; [now rewrite length_map|].
    intros t' Ht'. apply in_map_iff in Ht'. destruct Ht' as [t [<- Ht]].
    apply filter_In in Ht. destruct Ht as [Hin Hcond].
    exists t. split; [exact Hin|]. split; [reflexivity|].
    apply orb_true_iff in Hcond. destruct Hcond as [Htitle|Hdesc].
    + left. now apply includes_occurs.
    + right. destruct (task_description t) as [d|]; [|discriminate].
      apply andb_true_iff in Hdesc. destruct Hdesc as [_ Hd].
      exists d. split; [reflexivity | now apply includes_occurs].
  - eexists. split; [reflexivity|]. cbn [reply_tasks]. f_equal.
    apply forallb_filter_id, forallb_forall. intros t _.
    rewrite Hempty. apply orb_true_iff. left.
    apply includes_occurs. exists ""%string, (toLowerCase (task_title t)).
    reflexivity.
Qed.

(** ** The window across the turns *)

Section Bound.

Variable post : string -> string -> completion string.
Variable JSON_parse : string -> completion llmResult.
Variable executeMCPTool : string -> string -> completion toolResult.
Variable toLocaleDateString : string -> string.
Variable toLocaleTimeString : string -> string.

(** One [addMessage] brings any state within a limit that is not
    negative. *)
Lemma addMessage_within (r c now : string) (m : ConversationMemory) :
  0 <= maxMessages m ->
  Z.of_nat (List.length (messages (exec (addMessage r c now) m)))
    <= maxMessages m.
Proof.
  intros Hmax. rewrite addMessage_lastn, length_lastn. lia.
Qed.

(** The state a turn leaves: that of the commands, or the user's message
    and at most one message of the assistant. *)
Lemma chatLoop_state (input answer nowUser nowAssistant : string)
  (m : ConversationMemory) :
  let after :=
    exec (chatLoop post JSON_parse executeMCPTool toLocaleDateString
            toLocaleTimeString input answer nowUser nowAssistant) m in
  after = m \/ after = mkMemory [] (maxMessages m) "" \/
  after = exec (addMessage "user" input nowUser) m \/
  exists text,
    after = exec (addMessage "assistant" text nowAssistant)
              (exec (addMessage "user" input nowUser) m).
Proof.
  cbv zeta.
  destruct (in_dec string_dec (Text.toLowerCase input) commands) as [Hc|Hc].
  - unfold commands in Hc. cbn [In] in Hc. unfold exec, chatLoop.
    destruct Hc as [<-|[<-|[<-|[<-|[<-|[]]]]]]; cbn; auto.
  - right. right.
    remember (exec (chatLoop post JSON_parse executeMCPTool
                      toLocaleDateString toLocaleTimeString
                      input answer nowUser nowAssistant) m) as after
      eqn:Hafter.
    unfold exec at 1 in Hafter. rewrite chatLoop_run in Hafter by exact Hc.
    cbv zeta in Hafter. revert Hafter.
    destruct (outcome _ m) as [llm|e].
    + destruct (String.eqb (action llm) "ask_clarification").
      * destruct (missing_info llm) as [[|info infos]|]; cbn [snd];
          intros ->; first [now left | right; eexists; reflexivity].
      * destruct (_ && _); cbn [snd];
          [intros ->; right; eexists; reflexivity|].
        destruct (executeMCPTool _ _) as [result|e];
          rewrite ?recordError_run; cbn [snd]; intros ->;
          right; eexists; reflexivity.
    + rewrite recordError_run. cbn [snd]. intros ->.
      right. eexists. reflexivity.
Qed.

End Bound.

(** X21: [chatLoop] keeps the window within its limit: on a memory with a
    positive limit that holds at most that many messages, after a turn on
    any line, whatever the model, the user and the tools answer, the limit
    is the same and the memory holds at most that many messages. *)
Theorem chatLoop_keeps_bound
  (post : string -> string -> completion string)
  (JSON_parse : string -> completion llmResult)
  (executeMCPTool : string -> string -> completion toolResult)
  (toLocaleDateString toLocaleTimeString : string -> string)
  (input answer nowUser nowAssistant : string) (m : ConversationMemory) :
  0 < maxMessages m ->
  Z.of_nat (List.length (messages m)) <= maxMessages m ->
  maxMessages
    (exec (chatLoop post JSON_parse executeMCPTool toLocaleDateString
             toLocaleTimeString input answer nowUser nowAssistant) m)
    = maxMessages m /\
  Z.of_nat
    (List.length
       (messages
          (exec (chatLoop post JSON_parse executeMCPTool toLocaleDateString
                   toLocaleTimeString input answer nowUser nowAssistant) m)))
    <= maxMessages m.
Proof.
  intros Hmax Hlen.
  pose proof (chatLoop_state post JSON_parse executeMCPTool
                toLocaleDateString toLocaleTimeString
                input answer nowUser nowAssistant m) as Hstate.
  cbv zeta in Hstate.
  destruct Hstate as [->|[->|[->|[text ->]]]].
  - split; [reflexivity | exact Hlen].
  - split; [reflexivity | cbn; lia].
  - split; [apply addMessage_maxMessages|].
    apply addMessage_within. lia.
  - rewrite !addMessage_maxMessages. split; [reflexivity|].
    pose proof (addMessage_within "assistant" text nowAssistant
                  (exec (addMessage "user" input nowUser) m)) as H.
    rewrite addMessage_maxMessages in H. apply H. lia.
Qed.

(** ** Instances of the properties above *)

Lemma totalMessages_is_min_witness :
  outcome getHistory
    (session [mkCall "user" "a" "1"; mkCall "assistant" "b" "2";
              mkCall "user" "c" "3"]
       (new_ConversationMemory (Some 2))) =
  Normal
    {| hist_messages :=
         lastn (Z.to_nat 2)
           (map message_of
              [mkCall "user" "a" "1"; mkCall "assistant" "b" "2";
               mkCall "user" "c" "3"]);
       hist_summary :=
         summary
           (session [mkCall "user" "a" "1"; mkCall "assistant" "b" "2";
                     mkCall "user" "c" "3"]
              (new_ConversationMemory (Some 2)));
       totalMessages := Z.min (Z.of_nat 3) 2 |}.
Proof.
  apply (totalMessages_is_min 2
           [mkCall "user" "a" "1"; mkCall "assistant" "b" "2";
            mkCall "user" "c" "3"]).
  discriminate.
Defined.

Lemma addMessage_nonpositive_limit_witness :
  addMessage "assistant" "created it" "1" (new_ConversationMemory (Some 0)) =
    updateSummary [mkMessage "assistant" "created it" "1"]
      (set_messages [] (new_ConversationMemory (Some 0))) /\
  messages (exec (addMessage "assistant" "created it" "1")
              (new_ConversationMemory (Some 0))) = [].
Proof.
  apply (addMessage_nonpositive_limit "assistant" "created it" "1"
           (new_ConversationMemory (Some 0))).
  discriminate.
Defined.

Lemma processWithOllama_context_witness :
  exists before,
    processWithOllama (fun _ _ => Normal "{}"%string)
      (fun _ => Throw "Unexpected token"%string) "hello" "1"
      (new_ConversationMemory None) =
    (match (fun _ _ : string => Normal "{}"%string)
             (before ++ "user: " ++ "hello" ++ JS.nl)%string "hello"%string
     with
     | Normal llmResponse =>
         parseResponse (fun _ => Throw "Unexpected token"%string) llmResponse
     | Throw e => Throw e
     end,
     exec (addMessage "user" "hello" "1") (new_ConversationMemory None)).
Proof.
  apply (processWithOllama_context (fun _ _ => Normal "{}"%string)
           (fun _ => Throw "Unexpected token"%string) "hello" "1"
           (new_ConversationMemory None)).
  reflexivity.
Defined.

Lemma chatLoop_commands_witness :
  chatLoop (fun _ _ => Throw "offline"%string)
    (fun _ => Throw "Unexpected token"%string)
    (fun _ _ => Throw "offline"%string) (fun s => s) (fun s => s)
    "Clear Memory" "" "1" "2"
    (mkMemory [mkMessage "user" "hello" "0"] 15 "") =
  (Normal {| next := Continue; asked := false; toolCalls := [] |},
   mkMemory [] 15 "").
Proof.
  apply (chatLoop_commands (fun _ _ => Throw "offline"%string)
           (fun _ => Throw "Unexpected token"%string)
           (fun _ _ => Throw "offline"%string) (fun s => s) (fun s => s)
           "Clear Memory" "" "1" "2"
           (mkMemory [mkMessage "user" "hello" "0"] 15 "")).
  cbn. tauto.
Defined.


Lemma chatLoop_records_witness :
  exists t,
    outcome
      (chatLoop (fun _ _ => Throw "connect ECONNREFUSED"%string)
         (fun _ => Throw "Unexpected token"%string)
         (fun _ _ => Throw "offline"%string) (fun s => s) (fun s => s)
         "show my tasks" "" "1" "2")
      (new_ConversationMemory None) = Normal t /\
    next t = Continue.
Proof.
  destruct (chatLoop_records (fun _ _ => Throw "connect ECONNREFUSED"%string)
              (fun _ => Throw "Unexpected token"%string)
              (fun _ _ => Throw "offline"%string) (fun s => s) (fun s => s)
              "show my tasks" "" "1" "2" (new_ConversationMemory None))
    as [t [Ht [Hnext _]]].
  - cbn. intuition discriminate.
  - exists t. split; assumption.
Defined.

Lemma chatLoop_error_recorded_witness :
  chatLoop (fun _ _ => Throw "connect ECONNREFUSED"%string)
    (fun _ => Throw "Unexpected token"%string)
    (fun _ _ => Throw "offline"%string) (fun s => s) (fun s => s)
    "show my tasks" "" "1" "2" (new_ConversationMemory None) =
  (Normal (mkTurn Continue false []),
   exec (addMessage "assistant" "Error occurred: connect ECONNREFUSED" "2")
     (exec (addMessage "user" "show my tasks" "1")
        (new_ConversationMemory None))).
Proof.
  apply (chatLoop_error_recorded
           (fun _ _ => Throw "connect ECONNREFUSED"%string)
           (fun _ => Throw "Unexpected token"%string)
           (fun _ _ => Throw "offline"%string) (fun s => s) (fun s => s)
           "show my tasks" "" "1" "2" (new_ConversationMemory None)
           "connect ECONNREFUSED").
  - cbn. intuition discriminate.
  - reflexivity.
Defined.

Lemma server_replies_are_summarised_witness :
  isTaskAction
    (mkMessage "assistant"
       (assistantResponse (fun s => s) (fun s => s)
          (mkLlmResult "delete_task" "{}" None None None)
          (mkToolResult true None (Some "Task deleted successfully"%string)
             None None)) "2") = true.
Proof.
  apply (server_replies_are_summarised (fun s => s) (fun s => s)
           (mkLlmResult "delete_task" "{}" None None None) "Meeting" "2"
           (mkTask "1" "Meeting" None "s" "e" [] None)
           (mkToolResult true None (Some "Task deleted successfully"%string)
              None None)
           (new_ConversationMemory None)).
  right. right. reflexivity.
Defined.

Lemma action_messages_stay_in_context_witness :
  exists ctx,
    outcome getContextString
      (session [mkCall "assistant" "created the meeting" "1";
                mkCall "user" "show tasks" "2";
                mkCall "assistant" "found 1 task" "3"]
         (new_ConversationMemory (Some 2))) = Normal ctx /\
    occurs_in "created the meeting" ctx.
Proof.
  apply (action_messages_stay_in_context 2
           [mkCall "assistant" "created the meeting" "1";
            mkCall "user" "show tasks" "2";
            mkCall "assistant" "found 1 task" "3"]
           (mkCall "assistant" "created the meeting" "1")).
  - left. reflexivity.
  - reflexivity.
Defined.

Lemma processTime_24_hours_witness :
  processTime (Text.numberToString 14 ++ ":" ++ twoDigits 30)
    = Some (Z.of_nat 14, Z.of_nat 30) /\
  processTime (twoDigits 14 ++ ":" ++ twoDigits 30)
    = Some (Z.of_nat 14, Z.of_nat 30).
Proof. apply (processTime_24_hours 14 30); lia. Defined.

Lemma processTime_12_hours_witness :
  processTime (Text.numberToString 12 ++ ":" ++ twoDigits 5 ++ " " ++ "AM")
    = Some (Z.of_nat (12 mod 12)
            + (if String.eqb (Text.toLowerCase "AM") "pm" then 12 else 0),
            Z.of_nat 5) /\
  processTime (Text.numberToString 12 ++ " " ++ "AM")
    = Some (Z.of_nat (12 mod 12)
            + (if String.eqb (Text.toLowerCase "AM") "pm" then 12 else 0),
            0).
Proof.
  apply (processTime_12_hours 12 5 " " "AM"); [lia | lia | |]; cbn; tauto.
Defined.

Lemma searchTasks_results_witness :
  exists r,
    searchTasks Text.toLowerCase ""
      (Normal [mkTask "1" "Team Meeting" None "s" "e" ["work"%string]
                 (Some "#3788d8"%string)]) = Normal r /\
    reply_tasks r =
      map withoutColor
        [mkTask "1" "Team Meeting" None "s" "e" ["work"%string]
           (Some "#3788d8"%string)].
Proof.
  apply (searchTasks_results Text.toLowerCase ""
           [mkTask "1" "Team Meeting" None "s" "e" ["work"%string]
              (Some "#3788d8"%string)] "").
  reflexivity.
Defined.

Lemma chatLoop_keeps_bound_witness :
  maxMessages
    (exec (chatLoop (fun _ _ => Normal "{}"%string)
             (fun _ => Normal (mkLlmResult "list_tasks" "{}" None None None))
             (fun _ _ => Normal (mkToolResult true (Some []) None None None))
             (fun s => s) (fun s => s) "show my tasks" "" "1" "2")
       (mkMemory [mkMessage "user" "hello" "0"] 1 ""))
  = maxMessages (mkMemory [mkMessage "user" "hello" "0"] 1 "") /\
  Z.of_nat
    (List.length
       (messages
          (exec (chatLoop (fun _ _ => Normal "{}"%string)
                   (fun _ => Normal
                               (mkLlmResult "list_tasks" "{}" None None None))
                   (fun _ _ => Normal
                                 (mkToolResult true (Some []) None None None))
                   (fun s => s) (fun s => s) "show my tasks" "" "1" "2")
             (mkMemory [mkMessage "user" "hello" "0"] 1 ""))))
    <= maxMessages (mkMemory [mkMessage "user" "hello" "0"] 1 "").
Proof.
  apply (chatLoop_keeps_bound (fun _ _ => Normal "{}"%string)
           (fun _ => Normal (mkLlmResult "list_tasks" "{}" None None None))
           (fun _ _ => Normal (mkToolResult true (Some []) None None None))
           (fun s => s) (fun s => s) "show my tasks" "" "1" "2"
           (mkMemory [mkMessage "user" "hello" "0"] 1 "")).
  - reflexivity.
  - discriminate.
Defined.
